(** * Browse History & Content Indexer: the Chrome extension

    A shallow embedding of the extension's service worker
    ([chrome-extension/background.js]), its content script
    ([chrome-extension/content.js]) and its popup
    ([chrome-extension/popup.js]), with the properties the specification
    states about the capture agent and the search caller.

    Layout: the JavaScript values the scripts handle, the effect monad the
    asynchronous functions run in, the three scripts, and then the lemmas. *)

From Stdlib Require Import List String Ascii Bool Arith NArith ZArith Lia.
From Stdlib Require DecimalString.
Import ListNotations.

Set Implicit Arguments.

(* ================================================================== *)
(** * JavaScript strings *)
(* ================================================================== *)

(** A JavaScript string is a sequence of UTF-16 code units.  Every method
    used by the scripts works code unit by code unit, so the sequence is the
    whole of the data. *)
Module Js.

Definition code_unit : Type := N.
Definition jsstring : Type := list code_unit.

(** A literal of the source, written in ASCII. *)
Definition str (s : string) : jsstring := map N_of_ascii (list_ascii_of_string s).

(** The double quote, for literals that contain one. *)
Definition dquote : code_unit := 34%N.

Definition jsstring_eqb (a b : jsstring) : bool :=
  if list_eq_dec N.eq_dec a b then true else false.

(** [!s] is false exactly on the non-empty strings; [undefined] is [None]. *)
Definition truthy (s : jsstring) : bool :=
  match s with [] => false | _ :: _ => true end.

Definition truthy_opt (s : option jsstring) : bool :=
  match s with Some s => truthy s | None => false end.

(** [a || b] on strings: the left operand unless it is falsy. *)
Definition or_else (a : option jsstring) (b : jsstring) : jsstring :=
  match a with
  | Some s => if truthy s then s else b
  | None => b
  end.

(** [s.startsWith(p)] *)
Fixpoint startsWith (s p : jsstring) {struct p} : bool :=
  match p, s with
  | [], _ => true
  | _ :: _, [] => false
  | c :: p', d :: s' => N.eqb c d && startsWith s' p'
  end.

(** [s.endsWith(p)] *)
Definition endsWith (s p : jsstring) : bool := startsWith (rev s) (rev p).

(** [s.includes(p)]: [p] starts at some position of [s]. *)
Fixpoint includes (s p : jsstring) : bool :=
  startsWith s p ||
  match s with
  | [] => false
  | _ :: s' => includes s' p
  end.

(** [s.slice(start, finish)]: a negative index counts from the end, both are
    clamped to the string, and an empty range gives the empty string. *)
Definition slice (s : jsstring) (start finish : Z) : jsstring :=
  let len := Z.of_nat (List.length s) in
  let from := if (start <? 0)%Z then Z.max (len + start) 0 else Z.min start len in
  let to := if (finish <? 0)%Z then Z.max (len + finish) 0 else Z.min finish len in
  firstn (Z.to_nat (to - from)) (skipn (Z.to_nat from) s).

(** [s.substring(0, n)] for a natural [n]. *)
Definition substring0 (s : jsstring) (n : nat) : jsstring := firstn n s.

(** The code units [trim] removes: WhiteSpace and LineTerminator of
    ECMAScript (TAB, LF, VT, FF, CR, SP, NBSP, U+1680, U+2000..U+200A,
    U+2028, U+2029, U+202F, U+205F, U+3000, U+FEFF). *)
Definition is_whitespace (c : code_unit) : bool :=
  ((9 <=? c) && (c <=? 13) || (c =? 32) || (c =? 160) || (c =? 5760)
   || (8192 <=? c) && (c <=? 8202) || (c =? 8232) || (c =? 8233)
   || (c =? 8239) || (c =? 8287) || (c =? 12288) || (c =? 65279))%N.

Fixpoint trimStart (s : jsstring) : jsstring :=
  match s with
  | c :: s' => if is_whitespace c then trimStart s' else s
  | [] => []
  end.

Definition trimEnd (s : jsstring) : jsstring := rev (trimStart (rev s)).

(** [s.trim()] *)
Definition trim (s : jsstring) : jsstring := trimEnd (trimStart s).

(** [s.split(sep)] for a one-unit separator: the pieces between the
    occurrences of [sep], in order; always at least one piece. *)
Fixpoint split (sep : code_unit) (s : jsstring) : list jsstring :=
  match s with
  | [] => [[]]
  | c :: s' =>
      if N.eqb c sep then [] :: split sep s'
      else match split sep s' with
           | piece :: pieces => (c :: piece) :: pieces
           | [] => [[c]]
           end
  end.

(** [a.join(sep)] *)
Fixpoint join (sep : jsstring) (a : list jsstring) : jsstring :=
  match a with
  | [] => []
  | [x] => x
  | x :: rest => x ++ sep ++ join sep rest
  end.

(** The decimal text of an integer, as a template literal prints a Number
    that holds it. *)
Definition Number_toString (z : Z) : jsstring :=
  str (DecimalString.NilZero.string_of_int (Z.to_int z)).

(** ** parseInt *)

Definition digit_value (radix : N) (c : code_unit) : option N :=
  let v := if ((48 <=? c) && (c <=? 57))%N then Some (c - 48)%N
           else if ((97 <=? c) && (c <=? 122))%N then Some (c - 87)%N
           else if ((65 <=? c) && (c <=? 90))%N then Some (c - 55)%N
           else None in
  match v with
  | Some d => if (d <? radix)%N then Some d else None
  | None => None
  end.

(** The longest prefix of digits of the radix, read most significant first:
    [None] when the first code unit is no digit. *)
Fixpoint read_digits (radix : N) (s : jsstring) (acc : option N) : option N :=
  match s with
  | [] => acc
  | c :: s' =>
      match digit_value radix c with
      | Some d =>
          read_digits radix s'
            (Some (match acc with Some a => a * radix + d | None => d end)%N)
      | None => acc
      end
  end.

(** [parseInt(s)] with no radix: leading white space is skipped, then an
    optional sign, then an optional [0x]/[0X] (radix 16), then the digits;
    [None] is NaN.  The value is the exact integer; a Number holds it
    exactly up to 2^53. *)
Definition parseInt (s : jsstring) : option Z :=
  let s1 := trimStart s in
  let '(negative, s2) :=
    match s1 with
    | 45%N :: r => (true, r)
    | 43%N :: r => (false, r)
    | _ => (false, s1)
    end in
  let '(radix, s3) :=
    match s2 with
    | 48%N :: 120%N :: r => (16%N, r)
    | 48%N :: 88%N :: r => (16%N, r)
    | _ => (10%N, s2)
    end in
  match read_digits radix s3 None with
  | Some n => Some (if negative then (- Z.of_N n)%Z else Z.of_N n)
  | None => None
  end.

(** [x || d] on a Number: NaN and zero are falsy. *)
Definition number_or (x : option Z) (d : Z) : Z :=
  match x with
  | Some z => if (z =? 0)%Z then d else z
  | None => d
  end.

(** ** Exceptions *)

Inductive exn : Type :=
| Error (message : jsstring)
| SyntaxError (message : jsstring)
| TypeError (message : jsstring)
| URIError (message : jsstring).

Inductive result (A : Type) : Type :=
| Ok (a : A)
| Throw (e : exn).
Arguments Ok {A} a.
Arguments Throw {A} e.

Definition rbind {A B} (c : result A) (k : A -> result B) : result B :=
  match c with
  | Ok a => k a
  | Throw e => Throw e
  end.

(** [try { c } catch (e) { h e }] for a computation without effects. *)
Definition rcatch {A} (c : result A) (h : exn -> result A) : result A :=
  match c with
  | Ok a => Ok a
  | Throw e => h e
  end.

(** [a.some(f)]: the callback runs on the elements in order until one
    answers true; what the callback throws escapes. *)
Fixpoint Array_some {A} (f : A -> result bool) (a : list A) : result bool :=
  match a with
  | [] => Ok false
  | x :: rest =>
      rbind (f x) (fun b => if b then Ok true else Array_some f rest)
  end.

(** [error.message] *)
Definition exn_message (e : exn) : jsstring :=
  match e with
  | Error m | SyntaxError m | TypeError m | URIError m => m
  end.

End Js.
Export Js.

(* ================================================================== *)
(** * Effects *)
(* ================================================================== *)

(** An asynchronous function of the scripts is a computation over a world
    [W]: it returns a value or throws, and the changes it made to the world
    stay in either case.  Every [await] is run to its end before the next
    statement, so a handler is one uninterrupted computation. *)
Module Eff.

Section Monad.
Variable W : Type.

Definition M (A : Type) : Type := W -> result A * W.

Definition ret {A} (a : A) : M A := fun w => (Ok a, w).

Definition bind {A B} (c : M A) (k : A -> M B) : M B :=
  fun w =>
    match c w with
    | (Ok a, w') => k a w'
    | (Throw e, w') => (Throw e, w')
    end.

Definition throw {A} (e : exn) : M A := fun w => (Throw e, w).

(** A computation without effects, run inside the world. *)
Definition lift {A} (c : result A) : M A := fun w => (c, w).

(** [try { c } catch (error) { h error }] *)
Definition try_catch {A} (c : M A) (h : exn -> M A) : M A :=
  fun w =>
    match c w with
    | (Ok a, w') => (Ok a, w')
    | (Throw e, w') => h e w'
    end.

(** [try { c } finally { f }]: [f] runs on both exits; what [c] returned
    or threw stands unless [f] throws. *)
Definition try_finally {A} (c : M A) (f : M unit) : M A :=
  fun w =>
    let '(r, w') := c w in
    match f w' with
    | (Ok _, w'') => (r, w'')
    | (Throw e, w'') => (Throw e, w'')
    end.

Definition gets {A} (f : W -> A) : M A := fun w => (Ok (f w), w).
Definition modify (f : W -> W) : M unit := fun w => (Ok tt, f w).

(** The world a handler leaves; a rejected promise nobody awaits is
    dropped. *)
Definition exec {A} (c : M A) (w : W) : W := snd (c w).
End Monad.

Arguments ret {W A} a.
Arguments throw {W A} e.
Arguments lift {W A} c.
Arguments gets {W A} f.
Arguments modify {W} f.

Declare Scope eff_scope.
Delimit Scope eff_scope with eff.
Notation "x <- c ;; k" := (bind c (fun x => k))
  (at level 61, c at next level, right associativity) : eff_scope.
Notation "c ;; k" := (bind c (fun _ => k))
  (at level 61, right associativity) : eff_scope.

End Eff.
Export Eff.
Open Scope eff_scope.

(* ================================================================== *)
(** * Built-ins of the platform *)
(* ================================================================== *)

(** The built-ins whose definition lies outside the extension and is too
    large to restate: the regular-expression engine, JSON serialization,
    URI encoding, and the formatting of floating-point numbers and dates.
    The development holds for every platform. *)
Class Platform : Type := {
  (** a compiled regular expression *)
  regexp : Type;
  (** [new RegExp(source)]; [None] when it throws a SyntaxError *)
  RegExp_new : jsstring -> option regexp;
  (** [regex.test(s)] for a regex built without flags *)
  RegExp_test : regexp -> jsstring -> bool;
  (** [JSON.stringify(o)] for an object [o] given by its own properties in
      creation order, all of them strings *)
  JSON_stringify : list (jsstring * jsstring) -> jsstring;
  (** [encodeURIComponent(s)]; [None] when it throws a URIError *)
  encodeURIComponent : jsstring -> option jsstring;
  (** a Number that is not known to be an integer *)
  number : Type;
  (** [x.toFixed(digits)] *)
  Number_toFixed : number -> nat -> jsstring;
  (** [new Date(s).toLocaleDateString()] *)
  Date_toLocaleDateString : jsstring -> jsstring
}.

(* ================================================================== *)
(** * The browser: storage, network, tabs *)
(* ================================================================== *)

Module Chrome.

Definition BACKEND_URL : jsstring := str "http://localhost:8000".
Definition BLOCKLIST_KEY : jsstring := str "blocklist".

(** The object [sendToBackend] is called with.  [tab.url] may be
    [undefined]; the other fields come from the extracted content. *)
Record payload : Type := {
  url : option jsstring;
  title : jsstring;
  description : jsstring;
  text : jsstring;
  timestamp : jsstring
}.

(** The own properties of a payload, in creation order; a property whose
    value is [undefined] is not serialized. *)
Definition to_object (data : payload) : list (jsstring * jsstring) :=
  match url data with Some u => [(str "url", u)] | None => [] end ++
  [ (str "title", title data);
    (str "description", description data);
    (str "text", text data);
    (str "timestamp", timestamp data) ].

(** [chrome.storage.local]: the two keys the extension uses; [None] is a
    key that was never set.  Reads and writes do not fail. *)
Record storage : Type := {
  blocklist : option (list jsstring);
  failedQueue : option (list payload)
}.

Record request : Type := {
  req_url : jsstring;
  req_method : jsstring;
  req_headers : list (jsstring * jsstring);
  req_body : option jsstring
}.

(** A response, with what [response.json()] comes to: the parsed body, or
    the exception it rejects with. *)
Record response (J : Type) : Type := {
  ok : bool;
  statusText : jsstring;
  json : result J
}.

(** What a call of [fetch] comes to. *)
Inductive fetch_outcome (J : Type) : Type :=
| Rejects (e : exn)
| Responds (r : response J).
Arguments Rejects {J} e.
Arguments Responds {J} r.

(** The calls a script makes to the outside, in the order made. *)
Inductive effect : Type :=
| StorageGet (key : jsstring)
| StorageSet (key : jsstring)
| Fetch (r : request)
| ExecuteScript (tabId : Z).

Definition is_fetch (e : effect) : bool :=
  match e with Fetch _ => true | _ => false end.

Definition is_script (e : effect) : bool :=
  match e with ExecuteScript _ => true | _ => false end.

(** The requests of a trace, oldest first. *)
Fixpoint requests (tr : list effect) : list request :=
  match tr with
  | [] => []
  | Fetch r :: tr' => r :: requests tr'
  | _ :: tr' => requests tr'
  end.

Record tab : Type := {
  tab_id : Z;
  tab_url : option jsstring;
  tab_status : option jsstring
}.

(** ** The page a script is injected into *)

Record element : Type := {
  innerText : option jsstring;     (* [undefined] off HTML elements *)
  textContent : jsstring
}.

(** The document, as the extraction reads it once the script has removed
    the elements it removes. *)
Record document : Type := {
  (** [querySelector('main, article, [role="main"]')] *)
  doc_main : option element;
  (** [querySelector('.content, #content')] *)
  doc_content : option element;
  doc_body : element;
  doc_title : jsstring;
  (** [querySelector('meta[name="description"]')?.content] *)
  meta_description : option jsstring;
  (** [querySelector('meta[name="keywords"]')?.content] *)
  meta_keywords : option jsstring;
  location_href : jsstring;
  (** [new Date().toISOString()] at the moment the script runs *)
  now_iso : jsstring
}.

(** What [chrome.scripting.executeScript] comes to: it rejects, it gives no
    result (an empty array, or a frame whose function threw), or the
    function ran on the page's document. *)
Inductive inject_outcome : Type :=
| InjectRejects (e : exn)
| InjectNoResult
| InjectRan (d : document).

End Chrome.
Export Chrome.

(* ================================================================== *)
(** * background.js: the service worker *)
(* ================================================================== *)

Module Background.

(** What [extractTextContent] returns. *)
Record content : Type := {
  content_text : jsstring;
  content_title : jsstring;
  content_description : jsstring;
  content_url : jsstring;
  content_timestamp : jsstring
}.

(** The body of the indexing endpoint's answer, [{chunks_indexed: n}]. *)
Record index_result : Type := { chunks_indexed : Z }.

(** The worker's world: the storage, the callbacks [setTimeout] holds (each
    closes over the tab of its visit; all have the same delay, so they fire
    oldest first), and the calls made so far. *)
Record world : Type := {
  store : storage;
  timers : list tab;
  trace : list effect
}.

Definition log (e : effect) (w : world) : world :=
  {| store := store w; timers := timers w; trace := trace w ++ [e] |}.

Definition set_store (s : storage) (w : world) : world :=
  {| store := s; timers := timers w; trace := trace w |}.

Definition set_timers (ts : list tab) (w : world) : world :=
  {| store := store w; timers := ts; trace := trace w |}.

Section Worker.
Context {P : Platform}.
(** The environment: what the n-th call of [fetch] and the n-th call of
    [executeScript] come to. *)
Variable backend : nat -> fetch_outcome index_result.
Variable scripting : nat -> inject_outcome.

(** ** Primitives *)

(** [chrome.storage.local.get([BLOCKLIST_KEY])], read at the key *)
Definition storage_get_blocklist : M world (option (list jsstring)) :=
  modify (log (StorageGet BLOCKLIST_KEY)) ;;
  gets (fun w => blocklist (store w)).

(** [chrome.storage.local.get(['failedQueue'])], read at the key *)
Definition storage_get_failedQueue : M world (option (list payload)) :=
  modify (log (StorageGet (str "failedQueue"))) ;;
  gets (fun w => failedQueue (store w)).

Definition storage_set_blocklist (l : list jsstring) : M world unit :=
  modify (log (StorageSet BLOCKLIST_KEY)) ;;
  modify (fun w => set_store {| blocklist := Some l;
                                failedQueue := failedQueue (store w) |} w).

Definition storage_set_failedQueue (q : list payload) : M world unit :=
  modify (log (StorageSet (str "failedQueue"))) ;;
  modify (fun w => set_store {| blocklist := blocklist (store w);
                                failedQueue := Some q |} w).

(** [fetch(url, init)] *)
Definition fetch (r : request) : M world (response index_result) :=
  fun w =>
    let w' := log (Fetch r) w in
    match backend (List.length (requests (trace w))) with
    | Rejects e => (Throw e, w')
    | Responds resp => (Ok resp, w')
    end.

(** [response.json()] *)
Definition response_json (r : response index_result) : M world index_result :=
  lift (json r).

(** [chrome.scripting.executeScript({target: {tabId}, function})] followed
    by [results[0]?.result]: [None] is [undefined]. *)
Definition executeScript {A} (tabId : Z) (f : document -> A) : M world (option A) :=
  fun w =>
    let w' := log (ExecuteScript tabId) w in
    match scripting (List.length (filter is_script (trace w))) with
    | InjectRejects e => (Throw e, w')
    | InjectNoResult => (Ok None, w')
    | InjectRan d => (Ok (Some (f d)), w')
    end.

(** [setTimeout(callback, 2000)] for the callback of a visit to [t] *)
Definition setTimeout (t : tab) : M world unit :=
  modify (fun w => set_timers (timers w ++ [t]) w).

(** ** The functions of the script *)

Definition loadBlocklist : M world (list jsstring) :=
  result <- storage_get_blocklist ;;
  ret (match result with Some l => l | None => [] end).

(** The [try] block of the callback given to [some]. *)
Definition pattern_try (url pattern : jsstring) : result bool :=
  if startsWith pattern (str "/") && endsWith pattern (str "/") then
    match RegExp_new (slice pattern 1 (-1)) with
    | Some regex => Ok (RegExp_test regex url)
    | None => Throw (SyntaxError (str "Invalid regular expression"))
    end
  else Ok (includes url pattern).

(** The callback given to [some], with its [catch]. *)
Definition pattern_matches (url pattern : jsstring) : result bool :=
  rcatch (pattern_try url pattern) (fun e => Ok (includes url pattern)).

Definition isBlocklisted (url : jsstring) : M world bool :=
  blocklist <- loadBlocklist ;;
  lift (Array_some (pattern_matches url) blocklist).

(** The function injected into the page. *)
Definition extractTextContent (d : document) : content :=
  let mainContent := match doc_main d with Some e => e | None => doc_body d end in
  let text :=
    or_else (Some (or_else (innerText mainContent) (textContent mainContent)))
            (str "") in
  let title := or_else (Some (doc_title d)) (str "") in
  let description := or_else (meta_description d) (str "") in
  {| content_text := trim text;
     content_title := trim title;
     content_description := trim description;
     content_url := location_href d;
     content_timestamp := now_iso d |}.

Definition extractPageContent (tabId : Z) : M world (option content) :=
  try_catch
    (executeScript tabId extractTextContent)
    (fun error => ret None).

(** The request [sendToBackend] makes. *)
Definition index_request (data : payload) : request :=
  {| req_url := BACKEND_URL ++ str "/index";
     req_method := str "POST";
     req_headers := [(str "Content-Type", str "application/json")];
     req_body := Some (JSON_stringify (to_object data)) |}.

(** [Some result] on success; [None] is the [undefined] the function
    returns once its [catch] has queued the data. *)
Definition sendToBackend (data : payload) : M world (option index_result) :=
  try_catch
    (response <- fetch (index_request data) ;;
     if negb (ok response) then
       throw (Error (str "Backend error: " ++ statusText response))
     else
       result <- response_json response ;;
       ret (Some result))
    (fun error =>
       queue <- storage_get_failedQueue ;;
       let failedQueue := match queue with Some q => q | None => [] end in
       storage_set_failedQueue (failedQueue ++ [data]) ;;
       ret None).

(** The callback [processPageVisit] hands to [setTimeout]. *)
Definition visit_callback (t : tab) : M world unit :=
  try_catch
    (content <- extractPageContent (tab_id t) ;;
     match content with
     | Some c =>
         if truthy (content_text c) then
           sendToBackend {| url := tab_url t;
                            title := content_title c;
                            description := content_description c;
                            text := content_text c;
                            timestamp := content_timestamp c |} ;;
           ret tt
         else ret tt
     | None => ret tt
     end)
    (fun error => ret tt).

Definition processPageVisit (t : tab) : M world unit :=
  match tab_url t with
  | None => ret tt
  | Some u =>
      if negb (truthy u) || startsWith u (str "chrome://")
         || startsWith u (str "chrome-extension://")
      then ret tt
      else
        isBlocked <- isBlocklisted u ;;
        if isBlocked then ret tt
        else setTimeout t
  end.

(** The loop of [retryFailedRequests].  The items are the objects of the
    array read from the storage; [successful.includes(item)] compares
    objects by identity, which is the position in that array. *)
Fixpoint retry_loop (queue : list (nat * payload)) (successful : list nat)
  : M world (list nat) :=
  match queue with
  | [] => ret successful
  | (i, data) :: rest =>
      successful' <-
        try_catch
          (sendToBackend data ;; ret (successful ++ [i]))
          (fun error => ret successful) ;;
      retry_loop rest successful'
  end.

Definition retryFailedRequests : M world unit :=
  result <- storage_get_failedQueue ;;
  let queue := match result with Some q => q | None => [] end in
  if 0 <? List.length queue then
    let items := combine (seq 0 (List.length queue)) queue in
    successful <- retry_loop items [] ;;
    let remaining :=
      filter (fun item => negb (existsb (Nat.eqb (fst item)) successful)) items in
    storage_set_failedQueue (map snd remaining)
  else ret tt.

Definition defaultBlocklist : list jsstring :=
  [str "chrome://"; str "chrome-extension://"; str "about:"; str "file://"].

(** The listener of [chrome.runtime.onInstalled]; an array, empty or not,
    is truthy. *)
Definition onInstalled : M world unit :=
  result <- storage_get_blocklist ;;
  match result with
  | Some _ => ret tt
  | None => storage_set_blocklist defaultBlocklist
  end.

(** The listener of [chrome.tabs.onUpdated] *)
Definition onUpdated (status : option jsstring) (t : tab) : M world unit :=
  if match status with Some s => jsstring_eqb s (str "complete") | None => false end
     && truthy_opt (tab_url t)
  then processPageVisit t else ret tt.

(** The listener of [chrome.tabs.onActivated], on the tab [chrome.tabs.get]
    gave. *)
Definition onActivated (t : tab) : M world unit :=
  if truthy_opt (tab_url t)
     && match tab_status t with Some s => jsstring_eqb s (str "complete") | None => false end
  then processPageVisit t else ret tt.

(** The oldest pending callback of [setTimeout] runs. *)
Definition timer_fires : M world unit :=
  fun w =>
    match timers w with
    | [] => (Ok tt, w)
    | t :: rest => visit_callback t (set_timers rest w)
    end.

End Worker.
End Background.

(* ================================================================== *)
(** * content.js: the content script *)
(* ================================================================== *)

Module Content.

(** What the content script's [extractTextContent] returns. *)
Record content : Type := {
  content_text : jsstring;
  content_title : jsstring;
  content_description : jsstring;
  content_keywords : jsstring;
  content_url : jsstring;
  content_timestamp : jsstring
}.

(** The script's own extraction, which it runs when it is sent the message
    [extractContent].  Its [catch] returns [null] when reading the page
    throws; reading a [document] does not. *)
Definition extractTextContent (d : document) : content :=
  let mainContent :=
    match doc_main d with
    | Some e => e
    | None => match doc_content d with
              | Some e => e
              | None => doc_body d
              end
    end in
  let text :=
    or_else (Some (or_else (innerText mainContent) (textContent mainContent)))
            (str "") in
  let title := or_else (Some (doc_title d)) (str "") in
  let description := or_else (meta_description d) (str "") in
  let keywords := or_else (meta_keywords d) (str "") in
  {| content_text := trim text;
     content_title := trim title;
     content_description := trim description;
     content_keywords := trim keywords;
     content_url := location_href d;
     content_timestamp := now_iso d |}.

End Content.

(* ================================================================== *)
(** * popup.js: the blocklist editor and the search box *)
(* ================================================================== *)

Module Popup.

Section Script.
Context {P : Platform}.

(** One entry of [data.results]; [None] is a property that is absent. *)
Record search_result : Type := {
  title : option jsstring;
  url : jsstring;
  chunk_text : option jsstring;
  distance : option number;
  timestamp : option jsstring;
  chunk_index : option Z;
  total_chunks : option Z
}.

(** The body of an answer of the backend's [/search] endpoint. *)
Record search_data : Type := { results : option (list search_result) }.

(** The [div] built for one result: the text of its children, and the URL
    its click listener opens. *)
Record result_item : Type := {
  item_title : jsstring;
  item_url : jsstring;
  item_snippet : option jsstring;
  item_meta : jsstring;
  item_opens : jsstring
}.

(** A child of the results [div]: markup assigned through [innerHTML], or
    an appended result. *)
Inductive node : Type :=
| Markup (html : jsstring)
| Item (r : result_item).

(** The elements of popup.html the script touches. *)
Record dom : Type := {
  blocklist_value : jsstring;           (* #blocklist .value *)
  status_text : jsstring;               (* #status .textContent *)
  status_class : jsstring;              (* #status .className *)
  searchQuery_value : jsstring;         (* #searchQuery .value *)
  topK_value : jsstring;                (* #topK .value *)
  searchBtn_disabled : bool;            (* #searchBtn .disabled *)
  searchResults : list node;            (* children of #searchResults *)
  searchStatus_text : jsstring;         (* #searchStatus .textContent *)
  searchStatus_class : jsstring         (* #searchStatus .className *)
}.

(** The callbacks the script hands to [setTimeout(..., 3000)]. *)
Inductive callback : Type :=
| ClearStatus
| ClearSearchStatus.

Record world : Type := {
  store : storage;
  page : dom;
  timers : list callback;
  trace : list effect
}.

Definition log (e : effect) (w : world) : world :=
  {| store := store w; page := page w; timers := timers w;
     trace := trace w ++ [e] |}.

Definition set_page (f : dom -> dom) : M world unit :=
  modify (fun w => {| store := store w; page := f (page w);
                      timers := timers w; trace := trace w |}).

Definition setTimeout (c : callback) : M world unit :=
  modify (fun w => {| store := store w; page := page w;
                      timers := timers w ++ [c]; trace := trace w |}).

Definition set_status (t c : jsstring) (d : dom) : dom :=
  {| blocklist_value := blocklist_value d;
     status_text := t; status_class := c;
     searchQuery_value := searchQuery_value d; topK_value := topK_value d;
     searchBtn_disabled := searchBtn_disabled d;
     searchResults := searchResults d;
     searchStatus_text := searchStatus_text d;
     searchStatus_class := searchStatus_class d |}.

Definition set_blocklist_value (v : jsstring) (d : dom) : dom :=
  {| blocklist_value := v;
     status_text := status_text d; status_class := status_class d;
     searchQuery_value := searchQuery_value d; topK_value := topK_value d;
     searchBtn_disabled := searchBtn_disabled d;
     searchResults := searchResults d;
     searchStatus_text := searchStatus_text d;
     searchStatus_class := searchStatus_class d |}.

Definition set_searchBtn_disabled (b : bool) (d : dom) : dom :=
  {| blocklist_value := blocklist_value d;
     status_text := status_text d; status_class := status_class d;
     searchQuery_value := searchQuery_value d; topK_value := topK_value d;
     searchBtn_disabled := b;
     searchResults := searchResults d;
     searchStatus_text := searchStatus_text d;
     searchStatus_class := searchStatus_class d |}.

Definition set_searchResults (l : list node) (d : dom) : dom :=
  {| blocklist_value := blocklist_value d;
     status_text := status_text d; status_class := status_class d;
     searchQuery_value := searchQuery_value d; topK_value := topK_value d;
     searchBtn_disabled := searchBtn_disabled d;
     searchResults := l;
     searchStatus_text := searchStatus_text d;
     searchStatus_class := searchStatus_class d |}.

Definition set_searchStatus_text (t : jsstring) (d : dom) : dom :=
  {| blocklist_value := blocklist_value d;
     status_text := status_text d; status_class := status_class d;
     searchQuery_value := searchQuery_value d; topK_value := topK_value d;
     searchBtn_disabled := searchBtn_disabled d;
     searchResults := searchResults d;
     searchStatus_text := t;
     searchStatus_class := searchStatus_class d |}.

Definition set_searchStatus_class (c : jsstring) (d : dom) : dom :=
  {| blocklist_value := blocklist_value d;
     status_text := status_text d; status_class := status_class d;
     searchQuery_value := searchQuery_value d; topK_value := topK_value d;
     searchBtn_disabled := searchBtn_disabled d;
     searchResults := searchResults d;
     searchStatus_text := searchStatus_text d;
     searchStatus_class := c |}.

(** [resultsDiv.innerHTML = html]: the children are replaced by what the
    markup parses to, nothing for the empty string. *)
Definition set_innerHTML (html : jsstring) (d : dom) : dom :=
  set_searchResults (if truthy html then [Markup html] else []) d.

(** [resultsDiv.appendChild(item)] *)
Definition appendChild (r : result_item) (d : dom) : dom :=
  set_searchResults (searchResults d ++ [Item r]) d.

(** The environment: what the n-th call of [fetch] comes to. *)
Variable backend : nat -> fetch_outcome search_data.

(** [fetch(url)] *)
Definition fetch (u : jsstring) : M world (response search_data) :=
  fun w =>
    let r := {| req_url := u; req_method := str "GET";
                req_headers := []; req_body := None |} in
    let w' := log (Fetch r) w in
    match backend (List.length (requests (trace w))) with
    | Rejects e => (Throw e, w')
    | Responds resp => (Ok resp, w')
    end.

Definition response_json (r : response search_data) : M world search_data :=
  lift (json r).

Definition storage_get_blocklist : M world (option (list jsstring)) :=
  modify (log (StorageGet BLOCKLIST_KEY)) ;;
  gets (fun w => blocklist (store w)).

Definition storage_set_blocklist (l : list jsstring) : M world unit :=
  modify (log (StorageSet BLOCKLIST_KEY)) ;;
  modify (fun w => {| store := {| blocklist := Some l;
                                  failedQueue := failedQueue (store w) |};
                      page := page w; timers := timers w; trace := trace w |}).

(** ** The functions of the script *)

Definition loadBlocklist : M world unit :=
  result <- storage_get_blocklist ;;
  let blocklist := match result with Some l => l | None => [] end in
  set_page (set_blocklist_value (join [10%N] blocklist)).

(** The lines [saveBlocklist] stores. *)
Definition saved_lines (value : jsstring) : list jsstring :=
  filter (fun line => 0 <? List.length line)
         (map trim (Js.split 10%N value)).

Definition saveBlocklist : M world unit :=
  value <- gets (fun w => blocklist_value (page w)) ;;
  let lines := saved_lines value in
  storage_set_blocklist lines ;;
  set_page (set_status
              (str "Saved " ++ Number_toString (Z.of_nat (List.length lines))
                 ++ str " blocklist entries")
              (str "status success")) ;;
  setTimeout ClearStatus.

Definition bullet : jsstring := [32%N; 8226%N; 32%N].

Definition createResultElement (result : search_result) (rank : nat) : result_item :=
  let snippet :=
    match chunk_text result with
    | Some t =>
        if truthy t then
          Some (if 150 <? List.length t
                then substring0 t 150 ++ str "..."
                else t)
        else None
    | None => None
    end in
  let metaText :=
    match distance result with
    | Some d => [str "Distance: " ++ Number_toFixed d 4]
    | None => []
    end ++
    match timestamp result with
    | Some t =>
        if truthy t then [str "Visited: " ++ Date_toLocaleDateString t] else []
    | None => []
    end ++
    match chunk_index result, total_chunks result with
    | Some i, Some n =>
        [str "Chunk " ++ Number_toString (i + 1) ++ str "/" ++ Number_toString n]
    | _, _ => []
    end in
  {| item_title := or_else (title result) (str "Untitled");
     item_url := url result;
     item_snippet := snippet;
     item_meta := join bullet metaText;
     item_opens := url result |}.

(** [results.forEach((result, index) => ...)] from position [index] on. *)
Fixpoint show_results (results : list search_result) (index : nat) : M world unit :=
  match results with
  | [] => ret tt
  | result :: rest =>
      let resultItem := createResultElement result (index + 1) in
      set_page (appendChild resultItem) ;;
      show_results rest (S index)
  end.

Definition loading_markup : jsstring :=
  str "<div class=" ++ [dquote] ++ str "loading" ++ [dquote]
      ++ str ">Searching...</div>".

Definition no_results_markup : jsstring :=
  str "<div class=" ++ [dquote] ++ str "no-results" ++ [dquote]
      ++ str ">No results found</div>".

Definition performSearch : M world unit :=
  queryValue <- gets (fun w => searchQuery_value (page w)) ;;
  topKValue <- gets (fun w => topK_value (page w)) ;;
  let query := trim queryValue in
  let topK := number_or (parseInt topKValue) 5 in
  if negb (truthy query) then
    set_page (set_searchStatus_text (str "Please enter a search query")) ;;
    set_page (set_searchStatus_class (str "status error")) ;;
    setTimeout ClearSearchStatus
  else
    set_page (set_searchBtn_disabled true) ;;
    set_page (set_innerHTML loading_markup) ;;
    set_page (set_searchStatus_text (str "")) ;;
    try_finally
      (try_catch
         (encoded <- match encodeURIComponent query with
                     | Some s => ret s
                     | None => throw (URIError (str "URI malformed"))
                     end ;;
          response <- fetch (BACKEND_URL ++ str "/search?query=" ++ encoded
                               ++ str "&top_k=" ++ Number_toString topK) ;;
          if negb (ok response) then
            throw (Error (str "Search failed: " ++ statusText response))
          else
            data <- response_json response ;;
            let results := match results data with Some l => l | None => [] end in
            if List.length results =? 0 then
              set_page (set_innerHTML no_results_markup) ;;
              set_page (set_searchStatus_text (str "No matching pages found")) ;;
              set_page (set_searchStatus_class (str "status info"))
            else
              set_page (set_innerHTML (str "")) ;;
              show_results results 0 ;;
              set_page (set_searchStatus_text
                          (str "Found " ++ Number_toString (Z.of_nat (List.length results))
                             ++ str " result(s)")) ;;
              set_page (set_searchStatus_class (str "status success")))
         (fun error =>
            set_page (set_innerHTML (str "")) ;;
            set_page (set_searchStatus_text
                        (str "Search failed: " ++ exn_message error)) ;;
            set_page (set_searchStatus_class (str "status error"))))
      (set_page (set_searchBtn_disabled false)).

(** A pending callback of [setTimeout] runs. *)
Definition run_callback (c : callback) : M world unit :=
  match c with
  | ClearStatus => set_page (set_status (str "") (str ""))
  | ClearSearchStatus =>
      set_page (set_searchStatus_text (str "")) ;;
      set_page (set_searchStatus_class (str ""))
  end.

End Script.
End Popup.

(* ================================================================== *)
(** * The extension at work *)
(* ================================================================== *)

(** The worker reacts to the browser's events one at a time; the user may
    save a new blocklist from the popup between any two of them. *)
Module Extension.

Inductive event : Type :=
| Installed
| TabUpdated (status : option jsstring) (t : tab)
| TabActivated (t : tab)
| TimerFires
| RetryTick
| BlocklistSaved (value : jsstring).

(** The tab a tab event is about. *)
Definition visit (e : event) : option tab :=
  match e with
  | TabUpdated _ t => Some t
  | TabActivated t => Some t
  | _ => None
  end.

(** The worker as it starts: nothing queued, nothing pending, no call made. *)
Definition start (bl : option (list jsstring)) : Background.world :=
  {| Background.store := {| blocklist := bl; failedQueue := None |};
     Background.timers := [];
     Background.trace := [] |}.

Section Run.
Context {P : Platform}.
Variable backend : nat -> fetch_outcome Background.index_result.
Variable scripting : nat -> inject_outcome.

Definition step (w : Background.world) (e : event) : Background.world :=
  match e with
  | Installed => exec Background.onInstalled w
  | TabUpdated status t => exec (Background.onUpdated status t) w
  | TabActivated t => exec (Background.onActivated t) w
  | TimerFires => exec (Background.timer_fires backend scripting) w
  | RetryTick => exec (Background.retryFailedRequests backend) w
  | BlocklistSaved value =>
      Background.set_store
        {| blocklist := Some (Popup.saved_lines value);
           failedQueue := failedQueue (Background.store w) |} w
  end.

Definition run (w : Background.world) (evs : list event) : Background.world :=
  fold_left step evs w.

(** What [isBlocklisted(u)] answers in a world. *)
Definition blocklisted (w : Background.world) (u : jsstring) : result bool :=
  fst (Background.isBlocklisted u w).

(** [u] was the URL of a tab event that found it off the blocklist. *)
Definition visited_clear (w0 : Background.world) (evs : list event) (u : jsstring)
  : Prop :=
  exists pre e post t,
    evs = pre ++ e :: post /\ visit e = Some t /\ tab_url t = Some u /\
    blocklisted (run w0 pre) u = Ok false.

(** The calls a step adds to the trace. *)
Definition added (w : Background.world) (e : event) : list effect :=
  skipn (List.length (Background.trace w)) (Background.trace (step w e)).

End Run.
End Extension.

(* ================================================================== *)
(** * The blocklist contract, in the specification's words *)
(* ================================================================== *)

Module Contract.

Section Blocklist.
Context {P : Platform}.

(** [pattern] occurs in [url] as a literal substring. *)
Definition occurs_in (pattern url : jsstring) : Prop :=
  exists before after, url = before ++ pattern ++ after.

(** [pattern] starts and ends with a slash, around [interior]; in the lone
    slash the two delimiters are one code unit and the interior is empty. *)
Definition delimited (pattern interior : jsstring) : Prop :=
  pattern = str "/" ++ interior ++ str "/" \/
  (pattern = str "/" /\ interior = []).

(** "Substring or regex match": a delimited pattern matches by its regular
    expression, any other pattern as a substring; a delimited pattern whose
    interior is no regular expression is read as a substring, slashes
    included. *)
Inductive Matches (url pattern : jsstring) : Prop :=
| match_regex (interior : jsstring) (regex : regexp) :
    delimited pattern interior ->
    RegExp_new interior = Some regex ->
    RegExp_test regex url = true ->
    Matches url pattern
| match_substring :
    (forall interior, ~ delimited pattern interior) ->
    occurs_in pattern url ->
    Matches url pattern
| match_fallback (interior : jsstring) :
    delimited pattern interior ->
    RegExp_new interior = None ->
    occurs_in pattern url ->
    Matches url pattern.

(** The list [loadBlocklist] reads from a world. *)
Definition stored_list (w : Background.world) : list jsstring :=
  match blocklist (Background.store w) with
  | Some l => l
  | None => []
  end.

End Blocklist.
End Contract.

(* ================================================================== *)
(** * What stays true of the worker's world *)
(* ================================================================== *)

Module Invariant.

Section Worker.
Context {P : Platform}.

(** The payload the callback of a visit to [t] builds from the content. *)
Definition capture (t : tab) (c : Background.content) : payload :=
  {| url := tab_url t;
     title := Background.content_title c;
     description := Background.content_description c;
     text := Background.content_text c;
     timestamp := Background.content_timestamp c |}.

(** The stored queue of failed requests. *)
Definition queue (w : Background.world) : list payload :=
  match failedQueue (Background.store w) with
  | Some q => q
  | None => []
  end.

(** Every request made is the indexing request of a payload in [Qp], every
    queued payload is in [Qp], and every pending visit is in [Qt]. *)
Definition good (Qp : payload -> Prop) (Qt : tab -> Prop) (w : Background.world)
  : Prop :=
  Forall (fun r => exists data, r = Background.index_request data /\ Qp data)
         (requests (Background.trace w))
  /\ Forall Qp (queue w)
  /\ Forall Qt (Background.timers w).

(** The request of a search for the encoded query [q] with [top_k = k]. *)
Definition search_request (q : jsstring) (k : Z) : request :=
  {| req_url := BACKEND_URL ++ str "/search?query=" ++ q ++ str "&top_k="
                            ++ Number_toString k;
     req_method := str "GET";
     req_headers := [];
     req_body := None |}.

(** The tab passes the guard that opens [processPageVisit]. *)
Definition capturable (t : tab) : Prop :=
  exists u, tab_url t = Some u /\ truthy u = true /\
            startsWith u (str "chrome://") = false /\
            startsWith u (str "chrome-extension://") = false.

End Worker.
End Invariant.

(* ================================================================== *)
(** * A platform to run the scripts on *)
(* ================================================================== *)

(** One instance of [Platform], to evaluate the scripts on concrete inputs.
    It follows the built-ins on the inputs described at each definition. *)
Module Sample.

(** The syntax characters of a regular expression: [^ $ \ . * + ? ( ) [ ]
    { } |]. *)
Definition syntax_character (c : code_unit) : bool :=
  existsb (N.eqb c) (str "^$\.*+?()[]{}|").

(** A source without syntax characters is a literal, which [test] searches
    for anywhere in its argument.  Other sources are refused, the malformed
    ones as by the built-in. *)
Definition literal_RegExp (source : jsstring) : option jsstring :=
  if existsb syntax_character source then None else Some source.

Definition hex_digit (n : N) : code_unit :=
  (if n <? 10 then 48 + n else 87 + n)%N.

(** The escape of one code unit inside a JSON string. *)
Definition json_escape (c : code_unit) : jsstring :=
  if (c =? 34)%N then [92; 34]%N
  else if (c =? 92)%N then [92; 92]%N
  else if (c =? 8)%N then str "\b"
  else if (c =? 9)%N then str "\t"
  else if (c =? 10)%N then str "\n"
  else if (c =? 12)%N then str "\f"
  else if (c =? 13)%N then str "\r"
  else if (c <? 32)%N then str "\u00" ++ [hex_digit (c / 16); hex_digit (c mod 16)]
  else [c].

Definition json_quote (s : jsstring) : jsstring :=
  [dquote] ++ flat_map json_escape s ++ [dquote].

(** Strings without lone surrogates serialize as by the built-in. *)
Definition json_object (o : list (jsstring * jsstring)) : jsstring :=
  str "{" ++ join (str ",")
                  (map (fun kv => json_quote (fst kv) ++ str ":" ++ json_quote (snd kv)) o)
          ++ str "}".

Definition uri_unreserved (c : code_unit) : bool :=
  ((48 <=? c) && (c <=? 57) || (65 <=? c) && (c <=? 90)
   || (97 <=? c) && (c <=? 122))%N
  || existsb (N.eqb c) (str "-_.!~*'()").

Definition HEX_digit (n : N) : code_unit :=
  (if n <? 10 then 48 + n else 55 + n)%N.

Definition percent (byte : N) : jsstring :=
  [37%N; HEX_digit (byte / 16); HEX_digit (byte mod 16)].

(** Code units below 128 are kept or percent-encoded as by the built-in;
    a string with any other code unit is refused. *)
Fixpoint uri_encode (s : jsstring) : option jsstring :=
  match s with
  | [] => Some []
  | c :: s' =>
      if (c <? 128)%N then
        match uri_encode s' with
        | Some r => Some ((if uri_unreserved c then [c] else percent c) ++ r)
        | None => None
        end
      else None
  end.

(** Distances that are integers, printed with the digits asked for. *)
Definition integer_toFixed (z : Z) (digits : nat) : jsstring :=
  Number_toString z ++
  match digits with
  | O => []
  | S _ => str "." ++ repeat 48%N digits
  end.

(** The date part of an ISO-8601 time stamp. *)
Definition iso_date (s : jsstring) : jsstring := firstn 10 s.

#[export] Instance platform : Platform := {|
  regexp := jsstring;
  RegExp_new := literal_RegExp;
  RegExp_test := fun regex s => includes s regex;
  JSON_stringify := json_object;
  encodeURIComponent := uri_encode;
  number := Z;
  Number_toFixed := integer_toFixed;
  Date_toLocaleDateString := iso_date
|}.

(** A backend that cannot be reached. *)
Definition unreachable {J} : nat -> fetch_outcome J :=
  fun _ => Rejects (TypeError (str "Failed to fetch")).

(** A backend that indexes every page into one chunk. *)
Definition indexing : nat -> fetch_outcome Background.index_result :=
  fun _ => Responds {| ok := true; statusText := str "OK";
                       json := Ok {| Background.chunks_indexed := 1 |} |}.

(** A backend that is down for its first [n] requests. *)
Definition down_for (n : nat) : nat -> fetch_outcome Background.index_result :=
  fun i => if i <? n then unreachable i else indexing i.

Definition article : document :=
  {| doc_main := Some {| innerText := Some (str "  Hello world  ");
                         textContent := str "Hello world" |};
     doc_content := None;
     doc_body := {| innerText := Some (str "menu Hello world footer");
                    textContent := str "menu Hello world footer" |};
     doc_title := str " Greeting ";
     meta_description := None;
     meta_keywords := None;
     location_href := str "https://example.com/hello";
     now_iso := str "2025-01-02T03:04:05.678Z" |}.

(** Every injection runs on [article]. *)
Definition pages : nat -> inject_outcome := fun _ => InjectRan article.

Definition example_tab : tab :=
  {| tab_id := 7;
     tab_url := Some (str "https://example.com/hello");
     tab_status := Some (str "complete") |}.

(** What the callback of a visit to [example_tab] captures on [article]. *)
Definition example_payload : payload :=
  {| url := Some (str "https://example.com/hello");
     title := str "Greeting";
     description := str "";
     text := str "Hello world";
     timestamp := str "2025-01-02T03:04:05.678Z" |}.

(** A visit to [example_tab] and its timer. *)
Definition one_visit : list Extension.event :=
  [Extension.TabUpdated (Some (str "complete")) example_tab; Extension.TimerFires].

(** The same, after which the user blocklists the site. *)
Definition visit_then_block : list Extension.event :=
  one_visit ++ [Extension.BlocklistSaved (str "example.com")].

(** The popup as opened, with the two inputs of the search box filled in. *)
Definition popup (query topK : jsstring) : Popup.world :=
  {| Popup.store := {| blocklist := None; failedQueue := None |};
     Popup.page :=
       {| Popup.blocklist_value := str "";
          Popup.status_text := str "";
          Popup.status_class := str "";
          Popup.searchQuery_value := query;
          Popup.topK_value := topK;
          Popup.searchBtn_disabled := false;
          Popup.searchResults := [];
          Popup.searchStatus_text := str "";
          Popup.searchStatus_class := str "" |};
     Popup.timers := [];
     Popup.trace := [] |}.

(** Two results; the nearer one is the second chunk of a later page. *)
Definition found : list (@Popup.search_result platform) :=
  [ {| Popup.title := Some (str "Zebra");
       Popup.url := str "https://example.com/z";
       Popup.chunk_text := Some (str "stripes");
       Popup.distance := Some 1%Z;
       Popup.timestamp := Some (str "2025-03-04T00:00:00.000Z");
       Popup.chunk_index := Some 1%Z;
       Popup.total_chunks := Some 2%Z |};
    {| Popup.title := Some (str "Aardvark");
       Popup.url := str "https://example.com/a";
       Popup.chunk_text := None;
       Popup.distance := Some 2%Z;
       Popup.timestamp := None;
       Popup.chunk_index := None;
       Popup.total_chunks := None |} ].

(** A backend that answers every search with [found]. *)
Definition searching : nat -> fetch_outcome (@Popup.search_data platform) :=
  fun _ => Responds {| ok := true; statusText := str "OK";
                       json := Ok {| Popup.results := Some found |} |}.

End Sample.

(* ================================================================== *)
(** * popup.js: the connection check *)
(* ================================================================== *)

Module Health.

(** The body of an answer of the backend's [/health] endpoint; [None] is an
    [index_size] that is absent. *)
Record health_data : Type := { index_size : option Z }.

(** The element [#backendStatus] and the calls made so far. *)
Record world : Type := {
  status_text : jsstring;               (* .textContent *)
  status_color : jsstring;              (* .style.color *)
  trace : list effect
}.

Section Script.
(** The environment: what the n-th call of [fetch] comes to. *)
Variable backend : nat -> fetch_outcome health_data.

(** [fetch(url)] *)
Definition fetch (u : jsstring) : M world (response health_data) :=
  fun w =>
    let r := {| req_url := u; req_method := str "GET";
                req_headers := []; req_body := None |} in
    let w' := {| status_text := status_text w; status_color := status_color w;
                 trace := trace w ++ [Fetch r] |} in
    match backend (List.length (requests (trace w))) with
    | Rejects e => (Throw e, w')
    | Responds resp => (Ok resp, w')
    end.

Definition set_textContent (t : jsstring) : M world unit :=
  modify (fun w => {| status_text := t; status_color := status_color w;
                      trace := trace w |}).

Definition set_color (c : jsstring) : M world unit :=
  modify (fun w => {| status_text := status_text w; status_color := c;
                      trace := trace w |}).

(** The check mark and the ballot cross that open the two messages. *)
Definition check_mark : code_unit := 10003%N.
Definition ballot_x : code_unit := 10007%N.

Definition not_connected : jsstring :=
  [ballot_x] ++ str " Backend not connected. Make sure the Python server is running.".

(** [checkBackend] of the popup that has the search box. *)
Definition checkBackend : M world bool :=
  try_catch
    (response <- fetch (BACKEND_URL ++ str "/health") ;;
     if ok response then
       data <- lift (json response) ;;
       set_textContent
         ([check_mark] ++ str " Backend connected ("
            ++ Number_toString (number_or (index_size data) 0)
            ++ str " vectors indexed)") ;;
       set_color (str "green") ;;
       ret true
     else throw (Error (str "Backend not responding")))
    (fun error =>
       set_textContent not_connected ;;
       set_color (str "red") ;;
       ret false).

(** [checkBackend] of the popup without the search box: the body of the
    answer is not read and nothing is returned. *)
Definition checkBackend_plain : M world unit :=
  try_catch
    (response <- fetch (BACKEND_URL ++ str "/health") ;;
     if ok response then
       set_textContent ([check_mark] ++ str " Backend connected") ;;
       set_color (str "green")
     else throw (Error (str "Backend not responding")))
    (fun error =>
       set_textContent not_connected ;;
       set_color (str "red")).

End Script.
End Health.

(* ================================================================== *)
(** * How a call to the backend ends *)
(* ================================================================== *)

Module Outcome.

(** The parsed body of a call that went through: the promise resolved, the
    status was ok and the body parsed. *)
Definition delivered {J} (o : fetch_outcome J) : option J :=
  match o with
  | Rejects _ => None
  | Responds r =>
      if ok r then match json r with Ok v => Some v | Throw _ => None end
      else None
  end.

(** The exception the [try] block of a search ends in, for the encoded
    query and the outcome of its call; [None] when it ends normally. *)
Definition search_error {J} (encoded : option jsstring) (o : fetch_outcome J)
  : option exn :=
  match encoded with
  | None => Some (URIError (str "URI malformed"))
  | Some _ =>
      match o with
      | Rejects e => Some e
      | Responds r =>
          if ok r then match json r with Ok _ => None | Throw e => Some e end
          else Some (Error (str "Search failed: " ++ statusText r))
      end
  end.

(** The page a search works on once its query is accepted: the button
    disabled, the results replaced by the loading line, the status text
    cleared. *)
Definition searching_page {P : Platform} (d : Popup.dom) : Popup.dom :=
  Popup.set_searchStatus_text (str "")
    (Popup.set_innerHTML Popup.loading_markup
       (Popup.set_searchBtn_disabled true d)).

(** The request that hands the core one capture: a POST to the indexing
    endpoint whose body is the serialization of an object with the five
    keys url, title, description, text and timestamp, in that order. *)
Definition five_field_request {P : Platform}
           (url title description text timestamp : jsstring) : request :=
  {| req_url := BACKEND_URL ++ str "/index";
     req_method := str "POST";
     req_headers := [(str "Content-Type", str "application/json")];
     req_body :=
       Some (JSON_stringify
               [ (str "url", url);
                 (str "title", title);
                 (str "description", description);
                 (str "text", text);
                 (str "timestamp", timestamp) ]) |}.

(** The event is the user saving a blocklist. *)
Definition is_save (e : Extension.event) : bool :=
  match e with Extension.BlocklistSaved _ => true | _ => false end.

End Outcome.

(* ================================================================== *)
(** * More inputs to run the scripts on *)
(* ================================================================== *)

Module Cases.

(** A page whose main element renders as white space only, although its
    text content holds words. *)
Definition blank_article : document :=
  {| doc_main := Some {| innerText := Some (str "   ");
                         textContent := str "hidden words" |};
     doc_content := None;
     doc_body := {| innerText := Some (str "menu"); textContent := str "menu" |};
     doc_title := str "Blank";
     meta_description := None;
     meta_keywords := None;
     location_href := str "https://example.com/blank";
     now_iso := str "2025-01-02T03:04:05.678Z" |}.

(** Every injection runs on [blank_article]. *)
Definition blank_pages : nat -> inject_outcome := fun _ => InjectRan blank_article.

Definition local_file : tab :=
  {| tab_id := 3;
     tab_url := Some (str "file:///home/me/notes.html");
     tab_status := Some (str "complete") |}.

(** A fresh worker on which a visit to [local_file] is pending. *)
Definition busy : Background.world :=
  exec (@Background.processPageVisit Sample.platform local_file)
       (Extension.start None).

(** The worker with the default blocklist installed. *)
Definition installed : Background.world :=
  Extension.start (Some Background.defaultBlocklist).

(** The popup with a textarea to save. *)
Definition editing (value : jsstring) : Popup.world :=
  {| Popup.store := {| blocklist := None; failedQueue := None |};
     Popup.page :=
       {| Popup.blocklist_value := value;
          Popup.status_text := str "";
          Popup.status_class := str "";
          Popup.searchQuery_value := str "";
          Popup.topK_value := str "5";
          Popup.searchBtn_disabled := false;
          Popup.searchResults := [];
          Popup.searchStatus_text := str "";
          Popup.searchStatus_class := str "" |};
     Popup.timers := [];
     Popup.trace := [] |}.

(** A backend that answers every search with an internal error. *)
Definition failing {J} : nat -> fetch_outcome J :=
  fun _ => Responds {| ok := false; statusText := str "Internal Server Error";
                       json := Throw (SyntaxError (str "Unexpected token")) |}.

(** A backend whose answers hold no results. *)
Definition finding_nothing : nat -> fetch_outcome (@Popup.search_data Sample.platform) :=
  fun _ => Responds {| ok := true; statusText := str "OK";
                       json := Ok {| Popup.results := None |} |}.

(** A health endpoint that reports 42 vectors. *)
Definition healthy : nat -> fetch_outcome Health.health_data :=
  fun _ => Responds {| ok := true; statusText := str "OK";
                       json := Ok {| Health.index_size := Some 42%Z |} |}.

Definition status_line : Health.world :=
  {| Health.status_text := str ""; Health.status_color := str "";
     Health.trace := [] |}.

End Cases.

(* ================================================================== *)
(** * Facts about JavaScript strings *)
(* ================================================================== *)

Section StringFacts.

Lemma startsWith_spec (s p : jsstring) :
  startsWith s p = true <-> exists rest, s = p ++ rest.
Proof.
  revert s; induction p as [|c p IH]; intros s; simpl.
  - split; [intros _; exists s; reflexivity | reflexivity].
  - destruct s as [|d s].
    + split; [discriminate | intros [rest H]; discriminate].
    + rewrite andb_true_iff, N.eqb_eq, IH. split.
      * intros [-> [rest ->]]. exists rest. reflexivity.
      * intros [rest H]. injection H as -> ->. split; [reflexivity | eauto].
Qed.

Lemma includes_spec (s p : jsstring) :
  includes s p = true <-> exists before after, s = before ++ p ++ after.
Proof.
  induction s as [|d s IH]; simpl.
  - rewrite orb_false_r, startsWith_spec. split.
    + intros [rest H]. exists [], rest. exact H.
    + intros [before [after H]]. destruct before; simpl in H.
      * exists after. exact H.
      * discriminate.
  - rewrite orb_true_iff, IH, startsWith_spec. split.
    + intros [[rest H] | [before [after H]]].
      * exists [], rest. exact H.
      * exists (d :: before), after. simpl. rewrite H. reflexivity.
    + intros [before [after H]]. destruct before as [|b before]; simpl in H.
      * left. exists after. exact H.
      * right. injection H as _ H. exists before, after. exact H.
Qed.

Lemma endsWith_spec (s p : jsstring) :
  endsWith s p = true <-> exists front, s = front ++ p.
Proof.
  unfold endsWith. rewrite startsWith_spec. split.
  - intros [rest H]. exists (rev rest).
    rewrite <- (rev_involutive s), H, rev_app_distr, rev_involutive. reflexivity.
  - intros [front ->]. exists (rev front). apply rev_app_distr.
Qed.

(** A pattern that starts and ends with a slash is the lone slash, or two
    slashes around an interior. *)
Lemma delimited_shape (p : jsstring) :
  startsWith p (str "/") = true -> endsWith p (str "/") = true ->
  p = str "/" \/ exists interior, p = str "/" ++ interior ++ str "/".
Proof.
  intros Hs He. apply startsWith_spec in Hs. apply endsWith_spec in He.
  destruct Hs as [rest ->]. destruct He as [front He].
  destruct (rev rest) as [|c r] eqn:Hr.
  - left. apply (f_equal (@rev _)) in Hr. rewrite rev_involutive in Hr.
    rewrite Hr. reflexivity.
  - right. apply (f_equal (@rev _)) in Hr. rewrite rev_involutive in Hr.
    simpl in Hr. subst rest. exists (rev r).
    assert (c = 47%N) as ->; [|reflexivity].
    change (str "/") with [47%N] in He. simpl in He.
    change (47%N :: rev r ++ [c]) with ((47%N :: rev r) ++ [c]) in He.
    apply app_inj_tail in He. apply He.
Qed.

(** [slice(1, -1)] takes the interior of a delimited pattern. *)
Lemma slice_interior (interior : jsstring) :
  slice (str "/" ++ interior ++ str "/") 1 (-1) = interior.
Proof.
  unfold slice. change (str "/") with [47%N]. simpl List.length.
  rewrite length_app. simpl List.length.
  change (1 <? 0)%Z with false. change (-1 <? 0)%Z with true. cbv iota.
  rewrite Z.min_l by lia. rewrite Z.max_l by lia.
  change (Z.to_nat 1) with 1%nat. simpl skipn.
  replace (Z.to_nat _) with (List.length interior) by lia.
  rewrite firstn_app, Nat.sub_diag, firstn_all. simpl. apply app_nil_r.
Qed.

Lemma slice_lone_slash : slice (str "/") 1 (-1) = [].
Proof. reflexivity. Qed.

Lemma trimStart_app_last (s : jsstring) (c : code_unit) :
  is_whitespace c = false -> trimStart (s ++ [c]) = trimStart s ++ [c].
Proof.
  intros Hc. induction s as [|d s IH]; simpl.
  - rewrite Hc. reflexivity.
  - destruct (is_whitespace d); [exact IH | reflexivity].
Qed.

Lemma trimStart_head (s : jsstring) :
  trimStart s = [] \/
  exists c rest, trimStart s = c :: rest /\ is_whitespace c = false.
Proof.
  induction s as [|d s IH]; simpl.
  - left. reflexivity.
  - destruct (is_whitespace d) eqn:Hd; [exact IH |].
    right. exists d, s. split; [reflexivity | exact Hd].
Qed.

Lemma trimStart_fixed (c : code_unit) (rest : jsstring) :
  is_whitespace c = false -> trimStart (c :: rest) = c :: rest.
Proof. intros H. simpl. rewrite H. reflexivity. Qed.

Lemma trimStart_idempotent (s : jsstring) : trimStart (trimStart s) = trimStart s.
Proof.
  destruct (trimStart_head s) as [-> | [c [rest [-> Hc]]]];
    [reflexivity | apply trimStart_fixed, Hc].
Qed.

Lemma trimEnd_idempotent (s : jsstring) : trimEnd (trimEnd s) = trimEnd s.
Proof.
  unfold trimEnd. rewrite rev_involutive, trimStart_idempotent. reflexivity.
Qed.

(** Trimming the end keeps a first code unit that is no white space. *)
Lemma trimEnd_cons (c : code_unit) (rest : jsstring) :
  is_whitespace c = false -> trimEnd (c :: rest) = c :: trimEnd rest.
Proof.
  intros Hc. unfold trimEnd. simpl rev.
  rewrite trimStart_app_last by exact Hc.
  rewrite rev_app_distr. reflexivity.
Qed.

Lemma trimStart_trim (s : jsstring) : trimStart (trim s) = trim s.
Proof.
  unfold trim.
  destruct (trimStart_head s) as [-> | [c [rest [-> Hc]]]]; [reflexivity |].
  rewrite trimEnd_cons by exact Hc. apply trimStart_fixed, Hc.
Qed.

Lemma trim_idempotent (s : jsstring) : trim (trim s) = trim s.
Proof.
  unfold trim at 1. rewrite trimStart_trim. unfold trim.
  apply trimEnd_idempotent.
Qed.

(** A trimmed string neither starts nor ends with white space. *)
Lemma trim_first (s : jsstring) (c : code_unit) (rest : jsstring) :
  trim s = c :: rest -> is_whitespace c = false.
Proof.
  intros H. pose proof (trimStart_trim s) as Hs. rewrite H in Hs.
  simpl in Hs. destruct (is_whitespace c) eqn:Hc; [|reflexivity].
  exfalso. destruct (trimStart_head rest) as [E | [d [r [E Hd]]]].
  - rewrite E in Hs. discriminate.
  - rewrite E in Hs. injection Hs as -> _. congruence.
Qed.

Lemma trim_last (s : jsstring) (front : jsstring) (c : code_unit) :
  trim s = front ++ [c] -> is_whitespace c = false.
Proof.
  unfold trim, trimEnd. intros H.
  apply (f_equal (@rev _)) in H. rewrite rev_involutive, rev_app_distr in H.
  simpl in H.
  destruct (trimStart_head (rev (trimStart s))) as [E | [d [r [E Hd]]]].
  - rewrite E in H. discriminate.
  - rewrite E in H. injection H as -> _. exact Hd.
Qed.

Lemma truthy_nonempty (s : jsstring) : truthy s = true <-> s <> [].
Proof. destruct s; simpl; split; congruence. Qed.

Example trim_spaces : trim (str "  a b  ") = str "a b".
Proof. reflexivity. Qed.

Example split_lines : Js.split 10%N [97; 10; 10; 98]%N = [[97%N]; []; [98%N]].
Proof. reflexivity. Qed.

Example parseInt_empty : parseInt (str "") = None.
Proof. reflexivity. Qed.

Example parseInt_words : parseInt (str "ten") = None.
Proof. reflexivity. Qed.

Example parseInt_prefix : parseInt (str " 12px") = Some 12%Z.
Proof. reflexivity. Qed.

Example parseInt_hex : parseInt (str "-0x1F") = Some (-31)%Z.
Proof. reflexivity. Qed.

Example zero_is_falsy : number_or (parseInt (str "0")) 5 = 5%Z.
Proof. reflexivity. Qed.

End StringFacts.

(* ================================================================== *)
(** * The blocklist check *)
(* ================================================================== *)

Section BlocklistFacts.
Context {P : Platform}.
Import Contract.

Lemma delimited_test (pattern : jsstring) :
  startsWith pattern (str "/") && endsWith pattern (str "/") = true <->
  exists interior, delimited pattern interior.
Proof.
  rewrite andb_true_iff. split.
  - intros [Hs He]. destruct (delimited_shape pattern Hs He) as [-> | [i ->]].
    + exists []. right. split; reflexivity.
    + exists i. left. reflexivity.
  - intros [i [-> | [-> _]]]; [|split; reflexivity].
    split.
    + apply startsWith_spec. eexists. reflexivity.
    + apply endsWith_spec. exists (str "/" ++ i). rewrite <- app_assoc. reflexivity.
Qed.

Lemma delimited_slice (pattern interior : jsstring) :
  delimited pattern interior -> slice pattern 1 (-1) = interior.
Proof.
  intros [-> | [-> ->]]; [apply slice_interior | apply slice_lone_slash].
Qed.

Lemma delimited_functional (pattern i j : jsstring) :
  delimited pattern i -> delimited pattern j -> i = j.
Proof.
  intros Hi Hj. rewrite <- (delimited_slice Hi). apply delimited_slice, Hj.
Qed.

(** The callback of [some] always answers. *)
Lemma pattern_matches_total (url pattern : jsstring) :
  exists b, Background.pattern_matches url pattern = Ok b.
Proof.
  unfold Background.pattern_matches, Background.pattern_try.
  destruct (startsWith pattern (str "/") && endsWith pattern (str "/")).
  - destruct (RegExp_new (slice pattern 1 (-1))); simpl; eauto.
  - simpl. eauto.
Qed.

Lemma pattern_matches_regex (url pattern interior : jsstring) (regex : regexp) :
  delimited pattern interior -> RegExp_new interior = Some regex ->
  Background.pattern_matches url pattern = Ok (RegExp_test regex url).
Proof.
  intros Hd Hr. unfold Background.pattern_matches, Background.pattern_try.
  rewrite (proj2 (delimited_test pattern)) by eauto.
  rewrite (delimited_slice Hd), Hr. reflexivity.
Qed.

Lemma pattern_matches_fallback (url pattern interior : jsstring) :
  delimited pattern interior -> RegExp_new interior = None ->
  Background.pattern_matches url pattern = Ok (includes url pattern).
Proof.
  intros Hd Hr. unfold Background.pattern_matches, Background.pattern_try.
  rewrite (proj2 (delimited_test pattern)) by eauto.
  rewrite (delimited_slice Hd), Hr. reflexivity.
Qed.

Lemma pattern_matches_plain (url pattern : jsstring) :
  (forall interior, ~ delimited pattern interior) ->
  Background.pattern_matches url pattern = Ok (includes url pattern).
Proof.
  intros Hn. unfold Background.pattern_matches, Background.pattern_try.
  destruct (startsWith pattern (str "/") && endsWith pattern (str "/")) eqn:E.
  - apply delimited_test in E. destruct E as [i Hi]. destruct (Hn i Hi).
  - reflexivity.
Qed.

Lemma pattern_matches_Matches (url pattern : jsstring) :
  Background.pattern_matches url pattern = Ok true <-> Matches url pattern.
Proof.
  split.
  - intros H.
    destruct (startsWith pattern (str "/") && endsWith pattern (str "/")) eqn:E.
    + apply delimited_test in E. destruct E as [i Hi].
      destruct (RegExp_new i) as [regex|] eqn:Hr.
      * rewrite (pattern_matches_regex url Hi Hr) in H.
        apply match_regex with i regex; [exact Hi | exact Hr | congruence].
      * rewrite (pattern_matches_fallback url Hi Hr) in H.
        apply match_fallback with i; [exact Hi | exact Hr |].
        apply includes_spec. congruence.
    + assert (forall i, ~ delimited pattern i) as Hn.
      { intros i Hi. assert (exists i, delimited pattern i) as Hex by eauto.
        apply delimited_test in Hex. congruence. }
      rewrite (pattern_matches_plain url Hn) in H.
      apply match_substring; [exact Hn |]. apply includes_spec. congruence.
  - intros [i regex Hi Hr Ht | Hn Ho | i Hi Hr Ho].
    + rewrite (pattern_matches_regex url Hi Hr), Ht. reflexivity.
    + rewrite (pattern_matches_plain url Hn).
      apply includes_spec in Ho. rewrite Ho. reflexivity.
    + rewrite (pattern_matches_fallback url Hi Hr).
      apply includes_spec in Ho. rewrite Ho. reflexivity.
Qed.

(** [some] over a callback that always answers. *)
Lemma Array_some_total {A} (f : A -> result bool) (a : list A) :
  (forall x, exists b, f x = Ok b) ->
  exists b, Array_some f a = Ok b /\
            (b = true <-> exists x, In x a /\ f x = Ok true).
Proof.
  intros Hf. induction a as [|x a IH]; simpl.
  - exists false. split; [reflexivity |].
    split; [discriminate | intros [x [[] _]]].
  - destruct (Hf x) as [[|] Hx]; rewrite Hx; simpl.
    + exists true. split; [reflexivity |].
      split; [intros _; exists x; auto | reflexivity].
    + destruct IH as [b [Hb Hiff]]. exists b. split; [exact Hb |].
      rewrite Hiff. split.
      * intros [y [Hy Hfy]]. exists y. auto.
      * intros [y [[<- | Hy] Hfy]]; [congruence | eauto].
Qed.

(** [isBlocklisted] reads the stored list once and runs [some] on it. *)
Lemma isBlocklisted_run (url : jsstring) (w : Background.world) :
  Background.isBlocklisted url w =
  (Array_some (Background.pattern_matches url) (stored_list w),
   Background.log (StorageGet BLOCKLIST_KEY) w).
Proof.
  unfold Background.isBlocklisted, Background.loadBlocklist,
    Background.storage_get_blocklist, stored_list, bind, modify, gets, ret, lift.
  simpl. destruct (blocklist (Background.store w)); reflexivity.
Qed.

(** C2.  Blocklist matching is substring-or-regex.  A pattern that starts
    and ends with a slash is matched by testing the regular expression made
    of its interior against the URL; a pattern of any other shape matches
    exactly when it occurs in the URL as a literal substring; and
    [isBlocklisted] answers true exactly when some pattern of the stored
    list matches. *)
Theorem isBlocklisted_substring_or_regex (url : jsstring) (w : Background.world) :
  (forall pattern interior regex,
      delimited pattern interior -> RegExp_new interior = Some regex ->
      Background.pattern_matches url pattern = Ok (RegExp_test regex url))
  /\ (forall pattern,
         (forall interior, ~ delimited pattern interior) ->
         exists b, Background.pattern_matches url pattern = Ok b /\
                   (b = true <-> occurs_in pattern url))
  /\ (fst (Background.isBlocklisted url w) = Ok true <->
      exists pattern, In pattern (stored_list w) /\ Matches url pattern).
Proof.
  split; [|split].
  - intros pattern interior regex. apply pattern_matches_regex.
  - intros pattern Hn. exists (includes url pattern).
    split; [apply pattern_matches_plain, Hn | apply includes_spec].
  - rewrite isBlocklisted_run. simpl.
    destruct (Array_some_total (Background.pattern_matches url) (stored_list w)
                (pattern_matches_total url)) as [b [Hb Hiff]].
    rewrite Hb. split.
    + intros H. assert (b = true) as Hbt by congruence.
      apply Hiff in Hbt. destruct Hbt as [x [Hx Hm]].
      exists x. split; [exact Hx | apply pattern_matches_Matches, Hm].
    + intros [x [Hx Hm]]. f_equal. apply Hiff.
      exists x. split; [exact Hx | apply pattern_matches_Matches, Hm].
Qed.

(** C9.  [isBlocklisted] is total: for every URL and every stored list it
    returns a boolean and throws nothing, its only call being the read of
    the list; and a slash-delimited pattern whose interior is no regular
    expression is matched as a literal substring, slashes included. *)
Theorem isBlocklisted_total (url : jsstring) (w : Background.world) :
  (exists b, Background.isBlocklisted url w =
             (Ok b, Background.log (StorageGet BLOCKLIST_KEY) w))
  /\ (forall pattern interior,
         delimited pattern interior -> RegExp_new interior = None ->
         Background.pattern_matches url pattern = Ok (includes url pattern)
         /\ (includes url pattern = true <-> occurs_in pattern url)).
Proof.
  split.
  - rewrite isBlocklisted_run.
    destruct (Array_some_total (Background.pattern_matches url) (stored_list w)
                (pattern_matches_total url)) as [b [Hb _]].
    exists b. rewrite Hb. reflexivity.
  - intros pattern interior Hd Hr.
    split; [apply pattern_matches_fallback with interior; assumption
           | apply includes_spec].
Qed.

End BlocklistFacts.

(* ================================================================== *)
(** * The worker, one function at a time *)
(* ================================================================== *)

Section WorkerFacts.
Context {P : Platform}.
Variable backend : nat -> fetch_outcome Background.index_result.
Variable scripting : nat -> inject_outcome.
Import Contract Invariant.

Lemma requests_app (a b : list effect) : requests (a ++ b) = requests a ++ requests b.
Proof.
  induction a as [|e a IH]; simpl; [reflexivity |].
  destruct e; simpl; rewrite ?IH; reflexivity.
Qed.

(** [sendToBackend] has two outcomes: the request succeeded and nothing
    else happened, or the payload went to the end of the stored queue.  It
    throws in neither. *)
Lemma sendToBackend_run (data : payload) (w : Background.world) :
  (exists result,
      Background.sendToBackend backend data w =
      (Ok (Some result),
       Background.log (Fetch (Background.index_request data)) w))
  \/ Background.sendToBackend backend data w =
     (Ok None,
      {| Background.store :=
           {| blocklist := blocklist (Background.store w);
              failedQueue := Some (queue w ++ [data]) |};
         Background.timers := Background.timers w;
         Background.trace :=
           Background.trace w ++
           [Fetch (Background.index_request data);
            StorageGet (str "failedQueue"); StorageSet (str "failedQueue")] |}).
Proof.
  unfold Background.sendToBackend, try_catch, bind, Background.fetch, queue.
  destruct (backend _) as [e | [[|] st [j|e]]]; simpl.
  - right. unfold Background.log; simpl. rewrite <- !app_assoc. reflexivity.
  - left. eexists. reflexivity.
  - right. unfold Background.log; simpl. rewrite <- !app_assoc. reflexivity.
  - right. unfold Background.log; simpl. rewrite <- !app_assoc. reflexivity.
  - right. unfold Background.log; simpl. rewrite <- !app_assoc. reflexivity.
Qed.

(** The second outcome is that of every failed transmission. *)
Lemma sendToBackend_failure (data : payload) (w : Background.world) :
  match backend (List.length (requests (Background.trace w))) with
  | Rejects _ => True
  | Responds r => ok r = false \/ exists e, json r = Throw e
  end ->
  queue (exec (Background.sendToBackend backend data) w) = queue w ++ [data].
Proof.
  unfold exec, Background.sendToBackend, try_catch, bind, Background.fetch, queue.
  destruct (backend _) as [e | [[|] st [j|e]]]; simpl; try reflexivity.
  intros [H | [e H]]; discriminate.
Qed.

Lemma sendToBackend_good Qp Qt (data : payload) (w : Background.world) :
  Qp data -> good Qp Qt w ->
  good Qp Qt (snd (Background.sendToBackend backend data w))
  /\ exists r, fst (Background.sendToBackend backend data w) = Ok r.
Proof.
  intros Hd (Hr & Hq & Ht).
  assert (Forall (fun r => exists data, r = Background.index_request data /\ Qp data)
                 (requests (Background.trace w) ++ [Background.index_request data]))
    as Hr'.
  { apply Forall_app. split; [exact Hr |]. constructor; [eauto | constructor]. }
  destruct (sendToBackend_run data w) as [[result ->] | ->]; simpl.
  - split; [|eauto]. unfold good; simpl.
    rewrite requests_app. simpl. auto.
  - split; [|eauto]. unfold good, queue; simpl.
    rewrite requests_app. simpl. repeat split; auto.
    apply Forall_app. split; [exact Hq | constructor; [exact Hd | constructor]].
Qed.

Lemma retry_loop_good Qp Qt (items : list (nat * payload)) :
  forall (successful : list nat) (w : Background.world),
    Forall Qp (map snd items) -> good Qp Qt w ->
    good Qp Qt (snd (Background.retry_loop backend items successful w))
    /\ fst (Background.retry_loop backend items successful w)
       = Ok (successful ++ map fst items).
Proof.
  induction items as [|[i data] items IH]; intros successful w Hi Hg; simpl.
  - rewrite app_nil_r. auto.
  - inversion Hi as [|? ? Hd Hi']; subst.
    destruct (@sendToBackend_good Qp Qt data w Hd Hg) as [Hg' [r Hr]].
    unfold bind at 1. unfold try_catch, bind.
    destruct (Background.sendToBackend backend data w) as [[r'|e] w'] eqn:E;
      simpl in *; [|discriminate].
    unfold ret. destruct (IH (successful ++ [i]) w' Hi' Hg') as [Hg'' Hs].
    split; [exact Hg'' |]. rewrite Hs, <- app_assoc. reflexivity.
Qed.

Lemma filter_all_successful (items : list (nat * payload)) (pre : list nat) :
  filter (fun item => negb (existsb (Nat.eqb (fst item)) (pre ++ map fst items)))
         items = [].
Proof.
  assert (forall l : list (nat * payload),
             (forall x, In x l -> In (fst x) (pre ++ map fst items)) ->
             filter (fun item => negb (existsb (Nat.eqb (fst item))
                                               (pre ++ map fst items))) l = [])
    as H.
  { induction l as [|x l IH]; intros Hl; simpl; [reflexivity |].
    assert (existsb (Nat.eqb (fst x)) (pre ++ map fst items) = true) as ->.
    { apply existsb_exists. exists (fst x). split;
        [apply Hl; left; reflexivity | apply Nat.eqb_refl]. }
    simpl. apply IH. intros y Hy. apply Hl. right. exact Hy. }
  apply H. intros x Hx. apply in_or_app. right. apply in_map, Hx.
Qed.

Lemma map_snd_indexed {A} (l : list A) (k : nat) :
  map snd (combine (seq k (List.length l)) l) = l.
Proof.
  revert k; induction l as [|x l IH]; intros k; simpl;
    [reflexivity | rewrite IH; reflexivity].
Qed.

(** [retryFailedRequests], unfolded once. *)
Lemma retryFailedRequests_unfold (w : Background.world) :
  Background.retryFailedRequests backend w =
  let w1 := Background.log (StorageGet (str "failedQueue")) w in
  match queue w with
  | [] => (Ok tt, w1)
  | _ :: _ =>
      let items := combine (seq 0 (List.length (queue w))) (queue w) in
      match Background.retry_loop backend items [] w1 with
      | (Ok successful, w2) =>
          Background.storage_set_failedQueue
            (map snd (filter (fun item =>
                                negb (existsb (Nat.eqb (fst item)) successful))
                             items)) w2
      | (Throw e, w2) => (Throw e, w2)
      end
  end.
Proof.
  unfold Background.retryFailedRequests, Background.storage_get_failedQueue,
    bind, modify, gets, queue. simpl.
  destruct (failedQueue (Background.store w)) as [[|p q]|]; reflexivity.
Qed.

(** A pass of [retryFailedRequests] over a queue that holds anything ends
    with the empty queue stored, whatever the backend answered. *)
Lemma retryFailedRequests_run Qp Qt (w : Background.world) :
  good Qp Qt w ->
  good Qp Qt (exec (Background.retryFailedRequests backend) w)
  /\ (queue w <> [] ->
      failedQueue (Background.store (exec (Background.retryFailedRequests backend) w))
      = Some []).
Proof.
  intros Hg. unfold exec. rewrite retryFailedRequests_unfold. cbv zeta.
  set (w1 := Background.log (StorageGet (str "failedQueue")) w).
  assert (good Qp Qt w1) as Hg1.
  { destruct Hg as (Hr & Hq & Ht). unfold good, w1, queue; simpl.
    rewrite requests_app, app_nil_r. auto. }
  destruct (queue w) as [|p q] eqn:Eq.
  - simpl. split; [exact Hg1 | congruence].
  - set (items := combine (seq 0 (List.length (p :: q))) (p :: q)).
    assert (Forall Qp (map snd items)) as Hi.
    { unfold items. rewrite map_snd_indexed. destruct Hg as (_ & Hq & _).
      rewrite Eq in Hq. exact Hq. }
    destruct (@retry_loop_good Qp Qt items [] w1 Hi Hg1) as [Hg2 Hs].
    destruct (Background.retry_loop backend items [] w1) as [[s|e] w2] eqn:E;
      cbn [fst snd] in Hs, Hg2; [|discriminate].
    assert (s = [] ++ map fst items) as -> by congruence.
    rewrite (filter_all_successful items []).
    unfold Background.storage_set_failedQueue, bind, modify. simpl.
    split; [|reflexivity].
    destruct Hg2 as (Hr & Hq & Ht). unfold good, queue; simpl.
    rewrite requests_app, app_nil_r. auto.
Qed.

(** The callback of a visit: one injection, then at most one
    [sendToBackend]; it throws nothing. *)
Lemma visit_callback_run (t : tab) (w : Background.world) :
  Background.visit_callback backend scripting t w =
  let w1 := Background.log (ExecuteScript (tab_id t)) w in
  match scripting (List.length (filter is_script (Background.trace w))) with
  | InjectRan d =>
      let c := Background.extractTextContent d in
      if truthy (Background.content_text c)
      then (Ok tt, snd (Background.sendToBackend backend (capture t c) w1))
      else (Ok tt, w1)
  | _ => (Ok tt, w1)
  end.
Proof.
  unfold Background.visit_callback, Background.extractPageContent,
    Background.executeScript, try_catch, bind, ret.
  destruct (scripting _) as [e| |d]; try reflexivity.
  cbv zeta.
  destruct (truthy (Background.content_text (Background.extractTextContent d)));
    [|reflexivity].
  change {| url := tab_url t;
            title := Background.content_title (Background.extractTextContent d);
            description :=
              Background.content_description (Background.extractTextContent d);
            text := Background.content_text (Background.extractTextContent d);
            timestamp :=
              Background.content_timestamp (Background.extractTextContent d) |}
    with (capture t (Background.extractTextContent d)).
  destruct (sendToBackend_run (capture t (Background.extractTextContent d))
              (Background.log (ExecuteScript (tab_id t)) w))
    as [[result ->] | ->]; reflexivity.
Qed.

Lemma log_good Qp Qt (e : effect) (w : Background.world) :
  is_fetch e = false -> good Qp Qt w -> good Qp Qt (Background.log e w).
Proof.
  intros He (Hr & Hq & Ht). unfold good, queue; simpl.
  rewrite requests_app. destruct e; try discriminate; simpl;
    rewrite app_nil_r; auto.
Qed.

Lemma visit_callback_good Qp Qt (t : tab) (w : Background.world) :
  (forall d, truthy (Background.content_text (Background.extractTextContent d)) = true ->
             Qp (capture t (Background.extractTextContent d))) ->
  good Qp Qt w ->
  good Qp Qt (snd (Background.visit_callback backend scripting t w)).
Proof.
  intros Hl Hg. rewrite visit_callback_run. cbv zeta.
  assert (good Qp Qt (Background.log (ExecuteScript (tab_id t)) w)) as Hg1
      by (apply log_good; [reflexivity | exact Hg]).
  destruct (scripting _) as [e| |d]; try exact Hg1.
  destruct (truthy _) eqn:Ht; [|exact Hg1].
  simpl. apply sendToBackend_good; [apply Hl, Ht | exact Hg1].
Qed.

(** [processPageVisit]: nothing at all for a tab the guard turns away;
    otherwise one read of the blocklist, and a timer when the URL is off
    the list. *)
Lemma processPageVisit_run (t : tab) (w : Background.world) :
  Background.processPageVisit t w =
  match tab_url t with
  | None => (Ok tt, w)
  | Some u =>
      if negb (truthy u) || startsWith u (str "chrome://")
         || startsWith u (str "chrome-extension://")
      then (Ok tt, w)
      else
        let w1 := Background.log (StorageGet BLOCKLIST_KEY) w in
        match Extension.blocklisted w u with
        | Ok true => (Ok tt, w1)
        | Ok false =>
            (Ok tt, Background.set_timers (Background.timers w ++ [t]) w1)
        | Throw e => (Throw e, w1)
        end
  end.
Proof.
  unfold Background.processPageVisit, Extension.blocklisted.
  destruct (tab_url t) as [u|]; [|reflexivity].
  destruct (negb (truthy u) || startsWith u (str "chrome://")
            || startsWith u (str "chrome-extension://")); [reflexivity |].
  unfold bind. rewrite isBlocklisted_run. simpl.
  destruct (Array_some _ _) as [[|]|e]; reflexivity.
Qed.

Lemma capturable_guard (t : tab) (u : jsstring) :
  tab_url t = Some u ->
  negb (truthy u) || startsWith u (str "chrome://")
  || startsWith u (str "chrome-extension://") = false ->
  capturable t.
Proof.
  intros Hu Hg. apply orb_false_elim in Hg. destruct Hg as [Hg H3].
  apply orb_false_elim in Hg. destruct Hg as [H1 H2].
  exists u. repeat split; try assumption.
  destruct (truthy u); [reflexivity | discriminate].
Qed.

Lemma processPageVisit_good Qp Qt (t : tab) (w : Background.world) :
  (capturable t ->
   forall u, tab_url t = Some u -> Extension.blocklisted w u = Ok false -> Qt t) ->
  good Qp Qt w ->
  good Qp Qt (snd (Background.processPageVisit t w)).
Proof.
  intros Hn Hg. rewrite processPageVisit_run.
  destruct (tab_url t) as [u|] eqn:Hu; [|exact Hg].
  destruct (negb (truthy u) || _ || _) eqn:Hguard; [exact Hg |].
  cbv zeta.
  assert (good Qp Qt (Background.log (StorageGet BLOCKLIST_KEY) w)) as Hg1
      by (apply log_good; [reflexivity | exact Hg]).
  destruct (Extension.blocklisted w u) as [[|]|e] eqn:Hb; try exact Hg1.
  destruct Hg1 as (Hr & Hq & Ht). unfold good, queue; simpl.
  repeat split; auto.
  apply Forall_app. split; [exact Ht |].
  constructor; [|constructor].
  apply Hn with u; [apply capturable_guard with u; assumption | reflexivity | exact Hb].
Qed.

(** One event keeps the world good, provided the payloads captured from
    good tabs are good and the tab of a visit that passes both the guard
    and the blocklist is good. *)
Lemma step_good Qp Qt (w : Background.world) (e : Extension.event) :
  (forall t d, Qt t ->
               truthy (Background.content_text (Background.extractTextContent d)) = true ->
               Qp (capture t (Background.extractTextContent d))) ->
  (forall t u, Extension.visit e = Some t -> capturable t -> tab_url t = Some u ->
               Extension.blocklisted w u = Ok false -> Qt t) ->
  good Qp Qt w ->
  good Qp Qt (Extension.step backend scripting w e).
Proof.
  intros Hl Hn Hg. destruct e as [| status t | t | | | value]; simpl.
  - unfold exec, Background.onInstalled, Background.storage_get_blocklist,
      Background.storage_set_blocklist, bind, modify, gets, ret. simpl.
    destruct Hg as (Hr & Hq & Ht).
    destruct (blocklist (Background.store w)); unfold good, queue; simpl;
      rewrite !requests_app; simpl; rewrite ?app_nil_r; auto.
  - unfold exec, Background.onUpdated.
    destruct (_ && _); [|exact Hg].
    apply processPageVisit_good; [|exact Hg].
    intros Hc u Hu Hb. apply (Hn t u); auto.
  - unfold exec, Background.onActivated.
    destruct (_ && _); [|exact Hg].
    apply processPageVisit_good; [|exact Hg].
    intros Hc u Hu Hb. apply (Hn t u); auto.
  - unfold exec, Background.timer_fires.
    destruct (Background.timers w) as [|t rest] eqn:Et; [exact Hg |].
    destruct Hg as (Hr & Hq & Ht). rewrite Et in Ht.
    inversion Ht as [|? ? Hqt Hrest]; subst.
    apply visit_callback_good; [intros d; apply Hl, Hqt |].
    unfold good, queue; simpl. auto.
  - apply retryFailedRequests_run, Hg.
  - destruct Hg as (Hr & Hq & Ht). unfold good, queue; simpl. auto.
Qed.

Lemma run_snoc (w : Background.world) (evs : list Extension.event)
      (e : Extension.event) :
  Extension.run backend scripting w (evs ++ [e]) =
  Extension.step backend scripting (Extension.run backend scripting w evs) e.
Proof. unfold Extension.run. rewrite fold_left_app. reflexivity. Qed.

Lemma good_weaken (Qp Qp' : payload -> Prop) (Qt Qt' : tab -> Prop)
      (w : Background.world) :
  (forall data, Qp data -> Qp' data) -> (forall t, Qt t -> Qt' t) ->
  good Qp Qt w -> good Qp' Qt' w.
Proof.
  intros Hp Ht (Hr & Hq & Hti). repeat split.
  - eapply Forall_impl; [|exact Hr]. intros r [data [-> Hd]]. eauto.
  - eapply Forall_impl; [|exact Hq]. exact Hp.
  - eapply Forall_impl; [|exact Hti]. exact Ht.
Qed.

Lemma start_good Qp Qt (bl : option (list jsstring)) :
  good Qp Qt (Extension.start bl).
Proof. repeat split; constructor. Qed.

Lemma visited_clear_snoc (w0 : Background.world) (evs : list Extension.event)
      (e : Extension.event) (u : jsstring) :
  Extension.visited_clear backend scripting w0 evs u ->
  Extension.visited_clear backend scripting w0 (evs ++ [e]) u.
Proof.
  intros (pre & e0 & post & t & -> & Hv & Hu & Hb).
  exists pre, e0, (post ++ [e]), t. rewrite <- app_assoc. auto.
Qed.

(** A visit to a blocklisted URL schedules nothing and sends nothing. *)
Lemma blocklisted_visit_inert (w : Background.world) (e : Extension.event)
      (t : tab) (u : jsstring) :
  Extension.visit e = Some t -> tab_url t = Some u ->
  Extension.blocklisted w u = Ok true ->
  Background.timers (Extension.step backend scripting w e) = Background.timers w
  /\ requests (Background.trace (Extension.step backend scripting w e))
     = requests (Background.trace w)
  /\ filter is_script (Background.trace (Extension.step backend scripting w e))
     = filter is_script (Background.trace w).
Proof.
  intros Hv Hu Hb.
  assert (Background.timers (snd (Background.processPageVisit t w))
          = Background.timers w
          /\ requests (Background.trace (snd (Background.processPageVisit t w)))
             = requests (Background.trace w)
          /\ filter is_script (Background.trace (snd (Background.processPageVisit t w)))
             = filter is_script (Background.trace w)) as Hp.
  { rewrite processPageVisit_run, Hu.
    destruct (negb (truthy u) || _ || _); [auto |].
    rewrite Hb. simpl. rewrite requests_app, filter_app. simpl.
    rewrite !app_nil_r. auto. }
  destruct e as [| status t' | t' | | | value]; try discriminate;
    injection Hv as ->; simpl; unfold exec.
  - unfold Background.onUpdated. destruct (_ && _); [exact Hp | auto].
  - unfold Background.onActivated. destruct (_ && _); [exact Hp | auto].
Qed.

(** Every request of a run carries a URL that was off the blocklist when
    its tab was visited. *)
Lemma run_cleared (bl : option (list jsstring)) (evs : list Extension.event) :
  good (fun data => exists u, url data = Some u /\
                    Extension.visited_clear backend scripting (Extension.start bl) evs u)
       (fun t => exists u, tab_url t = Some u /\
                 Extension.visited_clear backend scripting (Extension.start bl) evs u)
       (Extension.run backend scripting (Extension.start bl) evs).
Proof.
  induction evs as [|e evs IH] using rev_ind.
  - apply start_good.
  - rewrite run_snoc. apply step_good.
    + intros t d [u [Hu Hc]] _. exists u. split; [exact Hu | exact Hc].
    + intros t u Hv _ Hu Hb. exists u. split; [exact Hu |].
      exists evs, e, [], t. auto.
    + eapply good_weaken; [| |exact IH].
      * intros data [u [Hu Hc]]. exists u. split; [exact Hu |].
        apply visited_clear_snoc, Hc.
      * intros t [u [Hu Hc]]. exists u. split; [exact Hu |].
        apply visited_clear_snoc, Hc.
Qed.

(** A property of payloads that every capture has holds of every request
    of every run. *)
Lemma run_good Qp (bl : option (list jsstring)) (evs : list Extension.event) :
  (forall t d,
      truthy (Background.content_text (Background.extractTextContent d)) = true ->
      Qp (capture t (Background.extractTextContent d))) ->
  good Qp (fun _ => True) (Extension.run backend scripting (Extension.start bl) evs).
Proof.
  intros Hl. induction evs as [|e evs IH] using rev_ind.
  - apply start_good.
  - rewrite run_snoc. apply step_good; auto.
Qed.

(** C1, as amended.  A tab visit whose URL matches the blocklist stored at
    that moment schedules no extraction and sends nothing; and every
    payload transmitted in a run, first send or re-send from the queue,
    carries a URL that was off the blocklist stored when its tab was
    visited.  The blocklist is not read again when a payload is sent. *)
Theorem transmitted_urls_cleared_at_visit
        (bl : option (list jsstring)) (evs : list Extension.event) :
  (forall e t u,
      Extension.visit e = Some t -> tab_url t = Some u ->
      Extension.blocklisted
        (Extension.run backend scripting (Extension.start bl) evs) u = Ok true ->
      Background.timers
        (Extension.run backend scripting (Extension.start bl) (evs ++ [e]))
      = Background.timers (Extension.run backend scripting (Extension.start bl) evs)
      /\ requests (Background.trace
                     (Extension.run backend scripting (Extension.start bl) (evs ++ [e])))
         = requests (Background.trace
                       (Extension.run backend scripting (Extension.start bl) evs))
      /\ filter is_script
                (Background.trace
                   (Extension.run backend scripting (Extension.start bl) (evs ++ [e])))
         = filter is_script
                  (Background.trace
                     (Extension.run backend scripting (Extension.start bl) evs)))
  /\ (forall r,
         In r (requests (Background.trace
                           (Extension.run backend scripting (Extension.start bl) evs))) ->
         exists data u,
           r = Background.index_request data /\ url data = Some u /\
           Extension.visited_clear backend scripting (Extension.start bl) evs u).
Proof.
  split.
  - intros e t u Hv Hu Hb. rewrite run_snoc.
    apply blocklisted_visit_inert with t u; assumption.
  - intros r Hr. destruct (run_cleared bl evs) as (Hreq & _ & _).
    rewrite Forall_forall in Hreq.
    destruct (Hreq r Hr) as [data [-> [u [Hu Hc]]]]. eauto.
Qed.

(** C8.  Every request of every run carries a payload whose text is not
    empty and whose text, title and description are trimmed: trimming them
    again changes nothing.  The content script's own extraction trims the
    same fields. *)
Theorem sent_text_nonempty_and_trimmed
        (bl : option (list jsstring)) (evs : list Extension.event) :
  (forall r,
      In r (requests (Background.trace
                        (Extension.run backend scripting (Extension.start bl) evs))) ->
      exists data,
        r = Background.index_request data /\
        text data <> [] /\
        trim (text data) = text data /\
        trim (title data) = title data /\
        trim (description data) = description data)
  /\ (forall d,
         trim (Content.content_text (Content.extractTextContent d))
         = Content.content_text (Content.extractTextContent d)
         /\ trim (Content.content_title (Content.extractTextContent d))
            = Content.content_title (Content.extractTextContent d)
         /\ trim (Content.content_description (Content.extractTextContent d))
            = Content.content_description (Content.extractTextContent d)).
Proof.
  split.
  - intros r Hr.
    destruct (@run_good
                (fun data => text data <> [] /\ trim (text data) = text data /\
                             trim (title data) = title data /\
                             trim (description data) = description data)
                bl evs) as (Hreq & _ & _).
    + intros t d Ht. simpl. split; [apply truthy_nonempty, Ht |].
      repeat split; apply trim_idempotent.
    + rewrite Forall_forall in Hreq. destruct (Hreq r Hr) as [data [-> Hd]].
      exists data. split; [reflexivity | exact Hd].
  - intros d. repeat split; apply trim_idempotent.
Qed.

(** C10.  A tab with no URL, or whose URL starts with chrome:// or
    chrome-extension://, is skipped before the blocklist is consulted:
    [processPageVisit] returns with the world as it was, whatever the
    stored blocklist is, so the storage is not read, no script is injected,
    no timer is set and nothing is sent. *)
Theorem internal_pages_skipped (t : tab) (w : Background.world) :
  tab_url t = None \/
  (exists u, tab_url t = Some u /\
             (u = [] \/ startsWith u (str "chrome://") = true
              \/ startsWith u (str "chrome-extension://") = true)) ->
  Background.processPageVisit t w = (Ok tt, w)
  /\ (forall status, Extension.step backend scripting w (Extension.TabUpdated status t) = w)
  /\ Extension.step backend scripting w (Extension.TabActivated t) = w.
Proof.
  intros H.
  assert (Background.processPageVisit t w = (Ok tt, w)) as Hp.
  { rewrite processPageVisit_run.
    destruct H as [-> | [u [-> [-> | [Hc | Hc]]]]]; try reflexivity;
      rewrite Hc, ?orb_true_r; reflexivity. }
  split; [exact Hp |]. split.
  - intros status. simpl. unfold exec, Background.onUpdated.
    destruct (_ && _); [rewrite Hp |]; reflexivity.
  - simpl. unfold exec, Background.onActivated.
    destruct (_ && _); [rewrite Hp |]; reflexivity.
Qed.

End WorkerFacts.

(* ================================================================== *)
(** * The popup's search *)
(* ================================================================== *)

Section PopupFacts.
Context {P : Platform}.
Variable backend : nat -> fetch_outcome Popup.search_data.

Local Arguments str : simpl never.
Local Arguments Number_toString : simpl never.

Import Invariant.

(** [forEach] appends one item per result, in the order of the array, and
    touches nothing else. *)
Lemma show_results_run (rs : list Popup.search_result) :
  forall (index : nat) (w : Popup.world),
    Popup.show_results rs index w =
    (Ok tt,
     {| Popup.store := Popup.store w;
        Popup.page :=
          Popup.set_searchResults
            (Popup.searchResults (Popup.page w) ++
             map (fun ir => Popup.Item (Popup.createResultElement (snd ir) (fst ir + 1)))
                 (combine (seq index (List.length rs)) rs))
            (Popup.page w);
        Popup.timers := Popup.timers w;
        Popup.trace := Popup.trace w |}).
Proof.
  induction rs as [|r rs IH]; intros index w.
  - destruct w as [s [] ti tr]. simpl. rewrite app_nil_r. reflexivity.
  - simpl. unfold bind, Popup.set_page, modify. simpl. rewrite IH. simpl.
    rewrite <- app_assoc. reflexivity.
Qed.

Ltac popup_simpl :=
  cbn [fst snd Popup.trace Popup.page Popup.store Popup.timers Popup.log].

(** What a search adds to the requests: nothing for an empty query or one
    that cannot be encoded, else the one search request. *)
Lemma performSearch_requests (w : Popup.world) :
  requests (Popup.trace (exec (Popup.performSearch backend) w)) =
  requests (Popup.trace w) ++
  (if truthy (trim (Popup.searchQuery_value (Popup.page w))) then
     match encodeURIComponent (trim (Popup.searchQuery_value (Popup.page w))) with
     | Some q =>
         [search_request q (number_or (parseInt (Popup.topK_value (Popup.page w))) 5)]
     | None => []
     end
   else []).
Proof.
  destruct w as [s d ti tr]. unfold exec, Popup.performSearch.
  unfold bind at 1. unfold gets at 1. cbv beta iota.
  unfold bind at 1. unfold gets at 1. cbv beta iota. cbv zeta.
  cbn [Popup.page].
  destruct (truthy (trim (Popup.searchQuery_value d))) eqn:Hq; cbn [negb].
  - unfold try_finally, try_catch, bind, Popup.set_page, modify, ret, throw.
    cbn [Popup.page Popup.store Popup.timers Popup.trace].
    destruct (encodeURIComponent _) as [q|].
    + unfold Popup.fetch. popup_simpl.
      destruct (backend _) as [e | [okay st j]];
        [popup_simpl; rewrite requests_app; reflexivity |].
      cbn [ok json]. destruct okay; cbn [negb];
        [|popup_simpl; rewrite requests_app; reflexivity].
      unfold Popup.response_json, lift. cbn [json].
      destruct j as [[results]|e];
        [|popup_simpl; rewrite requests_app; reflexivity].
      cbn [Popup.results].
      destruct results as [[|r rs]|]; cbn [List.length Nat.eqb];
        try (popup_simpl; rewrite requests_app; reflexivity).
      rewrite show_results_run. popup_simpl.
      rewrite requests_app. reflexivity.
    + popup_simpl. rewrite app_nil_r. reflexivity.
  - unfold bind, Popup.set_page, Popup.setTimeout, modify.
    popup_simpl. rewrite app_nil_r. reflexivity.
Qed.

(** Saving the textarea stores its non-empty trimmed lines, which is the
    change the worker sees as [BlocklistSaved]. *)
Lemma saveBlocklist_stores (w : Popup.world) :
  Popup.store (exec Popup.saveBlocklist w) =
  {| blocklist := Some (Popup.saved_lines (Popup.blocklist_value (Popup.page w)));
     failedQueue := failedQueue (Popup.store w) |}.
Proof. reflexivity. Qed.

(** C6.  A search whose query is empty once trimmed is turned away
    before anything is asked of the backend: no call is made, the status
    line shows an error, and the results shown are left as they were. *)
Theorem empty_query_rejected (w : Popup.world) :
  trim (Popup.searchQuery_value (Popup.page w)) = [] ->
  fst (Popup.performSearch backend w) = Ok tt
  /\ Popup.trace (exec (Popup.performSearch backend) w) = Popup.trace w
  /\ Popup.store (exec (Popup.performSearch backend) w) = Popup.store w
  /\ Popup.searchResults (Popup.page (exec (Popup.performSearch backend) w))
     = Popup.searchResults (Popup.page w)
  /\ Popup.searchStatus_text (Popup.page (exec (Popup.performSearch backend) w))
     = str "Please enter a search query"
  /\ Popup.searchStatus_class (Popup.page (exec (Popup.performSearch backend) w))
     = str "status error"
  /\ Popup.timers (exec (Popup.performSearch backend) w)
     = Popup.timers w ++ [Popup.ClearSearchStatus].
Proof.
  intros Hq. destruct w as [s d ti tr]. cbn [Popup.page] in Hq.
  unfold exec, Popup.performSearch, bind, gets.
  cbn [Popup.page]. rewrite Hq. cbn [truthy negb].
  unfold Popup.set_page, Popup.setTimeout, modify. popup_simpl.
  repeat split.
Qed.

(** C4.  When the top_k input is empty or does not parse to a number, the
    search request, when one is made, asks for top_k=5. *)
Theorem top_k_defaults_to_5 (w : Popup.world) :
  Popup.topK_value (Popup.page w) = [] \/
  parseInt (Popup.topK_value (Popup.page w)) = None ->
  requests (Popup.trace (exec (Popup.performSearch backend) w)) =
  requests (Popup.trace w) ++
  (if truthy (trim (Popup.searchQuery_value (Popup.page w))) then
     match encodeURIComponent (trim (Popup.searchQuery_value (Popup.page w))) with
     | Some q =>
         [ {| req_url := BACKEND_URL ++ str "/search?query=" ++ q ++ str "&top_k=5";
              req_method := str "GET";
              req_headers := [];
              req_body := None |} ]
     | None => []
     end
   else []).
Proof.
  intros H. rewrite performSearch_requests.
  assert (parseInt (Popup.topK_value (Popup.page w)) = None) as ->.
  { destruct H as [-> | H]; [reflexivity | exact H]. }
  reflexivity.
Qed.

Lemma nth_error_indexed {A B} (f : nat * A -> B) (l : list A) :
  forall (k i : nat),
    nth_error (map f (combine (seq k (List.length l)) l)) i =
    option_map (fun x => f (k + i, x)) (nth_error l i).
Proof.
  induction l as [|x l IH]; intros k i; simpl.
  - destruct i; reflexivity.
  - destruct i as [|i]; simpl.
    + rewrite Nat.add_0_r. reflexivity.
    + rewrite IH. rewrite Nat.add_succ_comm. reflexivity.
Qed.

Lemma join_head (sep x : jsstring) (l : list jsstring) :
  exists rest, join sep (x :: l) = x ++ rest.
Proof.
  destruct l as [|y l]; simpl.
  - exists []. rewrite app_nil_r. reflexivity.
  - eexists. reflexivity.
Qed.

(** The results shown after an answer that holds some. *)
Lemma performSearch_shows (w : Popup.world) (q : jsstring)
      (resp : response Popup.search_data) (rs : list Popup.search_result) :
  truthy (trim (Popup.searchQuery_value (Popup.page w))) = true ->
  encodeURIComponent (trim (Popup.searchQuery_value (Popup.page w))) = Some q ->
  backend (List.length (requests (Popup.trace w))) = Responds resp ->
  ok resp = true ->
  json resp = Ok {| Popup.results := Some rs |} ->
  rs <> [] ->
  Popup.searchResults (Popup.page (exec (Popup.performSearch backend) w)) =
  map (fun ir => Popup.Item (Popup.createResultElement (snd ir) (fst ir + 1)))
      (combine (seq 0 (List.length rs)) rs).
Proof.
  intros Hq He Hb Hok Hj Hrs. destruct w as [s d ti tr].
  cbn [Popup.page Popup.trace] in *.
  unfold exec, Popup.performSearch.
  unfold bind at 1. unfold gets at 1. cbv beta iota.
  unfold bind at 1. unfold gets at 1. cbv beta iota. cbv zeta.
  cbn [Popup.page]. rewrite Hq. cbn [negb].
  unfold try_finally, try_catch, bind, Popup.set_page, modify, ret, throw.
  popup_simpl. rewrite He. unfold Popup.fetch. popup_simpl. rewrite Hb.
  rewrite Hok. cbn [negb]. unfold Popup.response_json, lift. rewrite Hj.
  cbn [Popup.results].
  destruct rs as [|r rs]; [congruence |]. cbn [List.length Nat.eqb].
  rewrite show_results_run. popup_simpl.
  destruct d. reflexivity.
Qed.

(** C7.  The results of an answer are shown in the order of its results
    array, one item per result and nothing in between: the item at each
    position is the one built from the result at that position; and the
    distance an item shows is that of its own result, printed with four
    decimals. *)
Theorem results_shown_in_response_order (w : Popup.world) (q : jsstring)
      (resp : response Popup.search_data) (rs : list Popup.search_result) :
  truthy (trim (Popup.searchQuery_value (Popup.page w))) = true ->
  encodeURIComponent (trim (Popup.searchQuery_value (Popup.page w))) = Some q ->
  backend (List.length (requests (Popup.trace w))) = Responds resp ->
  ok resp = true ->
  json resp = Ok {| Popup.results := Some rs |} ->
  rs <> [] ->
  List.length (Popup.searchResults (Popup.page (exec (Popup.performSearch backend) w)))
  = List.length rs
  /\ (forall i r,
         nth_error rs i = Some r ->
         nth_error (Popup.searchResults
                      (Popup.page (exec (Popup.performSearch backend) w))) i
         = Some (Popup.Item (Popup.createResultElement r (i + 1))))
  /\ (forall r rank d,
         Popup.distance r = Some d ->
         exists rest,
           Popup.item_meta (Popup.createResultElement r rank)
           = str "Distance: " ++ Number_toFixed d 4 ++ rest).
Proof.
  intros Hq He Hb Hok Hj Hrs.
  rewrite (performSearch_shows w Hq He Hb Hok Hj Hrs).
  split; [|split].
  - rewrite length_map, length_combine, length_seq. apply Nat.min_id.
  - intros i r Hi. rewrite nth_error_indexed, Hi. reflexivity.
  - intros r rank d Hd. unfold Popup.createResultElement.
    cbn [Popup.item_meta]. rewrite Hd. cbn [app].
    destruct (join_head Popup.bullet (str "Distance: " ++ Number_toFixed d 4)
                (match Popup.timestamp r with
                 | Some t =>
                     if truthy t
                     then [str "Visited: " ++ Date_toLocaleDateString t]
                     else []
                 | None => []
                 end ++
                 match Popup.chunk_index r, Popup.total_chunks r with
                 | Some i, Some n =>
                     [str "Chunk " ++ Number_toString (i + 1) ++ str "/"
                          ++ Number_toString n]
                 | _, _ => []
                 end)) as [rest Hrest].
    exists rest. rewrite <- app_assoc in Hrest. exact Hrest.
Qed.

End PopupFacts.

(* ================================================================== *)
(** * The scripts on concrete inputs *)
(* ================================================================== *)

Section Runs.
Import Sample Extension.
Existing Instance Sample.platform.

(** The blocklist check on three patterns: a regular expression, a
    substring, and slashes around what is no regular expression. *)
Lemma isBlocklisted_substring_or_regex_witness :
  Background.pattern_matches (str "https://example.com/hello") (str "/hello/")
  = Ok true
  /\ (exists b,
         Background.pattern_matches (str "https://example.com/hello") (str "example.org")
         = Ok b /\
         (b = true <->
          Contract.occurs_in (str "example.org") (str "https://example.com/hello"))).
Proof.
  destruct (isBlocklisted_substring_or_regex
              (str "https://example.com/hello") (start None)) as (Hre & Hsub & _).
  split.
  - apply (Hre (str "/hello/") (str "hello") (str "hello")).
    + left. reflexivity.
    + reflexivity.
  - apply Hsub. intros interior [H | [H _]]; discriminate H.
Defined.

Lemma isBlocklisted_total_witness :
  Background.pattern_matches (str "https://example.com/(/x") (str "/(/")
  = Ok (includes (str "https://example.com/(/x") (str "/(/"))
  /\ (includes (str "https://example.com/(/x") (str "/(/") = true <->
      Contract.occurs_in (str "/(/") (str "https://example.com/(/x")).
Proof.
  apply (proj2 (isBlocklisted_total (str "https://example.com/(/x") (start None))
               (str "/(/") (str "(")).
  - left. reflexivity.
  - reflexivity.
Defined.

(** C1 as stated fails.  A page is visited while the blocklist is empty
    and its transmission fails, the backend being down, so that the payload
    is queued; the user then blocklists the site; the next retry pass sends
    the payload again, at a moment when its URL matches the stored
    blocklist, and this time the backend receives it. *)
Lemma resend_of_blocklisted_url :
  blocklisted (run (down_for 1) pages (start None) visit_then_block)
              (str "https://example.com/hello") = Ok true
  /\ url example_payload = Some (str "https://example.com/hello")
  /\ added (down_for 1) pages
           (run (down_for 1) pages (start None) visit_then_block) RetryTick
     = [ StorageGet (str "failedQueue");
         Fetch (Background.index_request example_payload);
         StorageSet (str "failedQueue") ]
  /\ down_for 1
       (List.length
          (requests (Background.trace
                       (run (down_for 1) pages (start None) visit_then_block))))
     = Responds {| ok := true; statusText := str "OK";
                   json := Ok {| Background.chunks_indexed := 1 |} |}.
Proof. vm_compute. repeat split. Qed.

Lemma transmitted_urls_cleared_at_visit_witness :
  (Background.timers
     (run unreachable pages (start None) (visit_then_block ++ [TabActivated example_tab]))
   = Background.timers (run unreachable pages (start None) visit_then_block)
   /\ requests (Background.trace
                  (run unreachable pages (start None)
                       (visit_then_block ++ [TabActivated example_tab])))
      = requests (Background.trace (run unreachable pages (start None) visit_then_block))
   /\ filter is_script
             (Background.trace
                (run unreachable pages (start None)
                     (visit_then_block ++ [TabActivated example_tab])))
      = filter is_script
               (Background.trace (run unreachable pages (start None) visit_then_block)))
  /\ (exists data u,
         Background.index_request example_payload = Background.index_request data /\
         url data = Some u /\
         visited_clear unreachable pages (start None) visit_then_block u).
Proof.
  destruct (transmitted_urls_cleared_at_visit unreachable pages None visit_then_block)
    as [Hblocked Hsent].
  split.
  - apply (Hblocked (TabActivated example_tab) example_tab
                    (str "https://example.com/hello")); reflexivity.
  - apply Hsent. left. reflexivity.
Defined.

(** The request of the sample visit, read off the model. *)
Example capture_request :
  requests (Background.trace (run indexing pages (start None) one_visit))
  = [ {| req_url := str "http://localhost:8000/index";
         req_method := str "POST";
         req_headers := [(str "Content-Type", str "application/json")];
         req_body :=
           Some (json_object
                   [ (str "url", str "https://example.com/hello");
                     (str "title", str "Greeting");
                     (str "description", str "");
                     (str "text", str "Hello world");
                     (str "timestamp", str "2025-01-02T03:04:05.678Z") ]) |} ].
Proof. reflexivity. Qed.

Lemma sent_text_nonempty_and_trimmed_witness :
  exists data,
    Background.index_request example_payload = Background.index_request data /\
    text data <> [] /\
    trim (text data) = text data /\
    trim (title data) = title data /\
    trim (description data) = description data.
Proof.
  apply (proj1 (sent_text_nonempty_and_trimmed indexing pages None one_visit)).
  left. reflexivity.
Defined.

Lemma internal_pages_skipped_witness :
  Background.processPageVisit
    {| tab_id := 1; tab_url := Some (str "chrome://extensions/");
       tab_status := Some (str "complete") |}
    (start (Some []))
  = (Ok tt, start (Some []))
  /\ Background.processPageVisit
       {| tab_id := 2; tab_url := None; tab_status := None |} (start None)
     = (Ok tt, start None).
Proof.
  split.
  - apply (internal_pages_skipped indexing pages).
    right. exists (str "chrome://extensions/"). split; [reflexivity |].
    right. left. reflexivity.
  - apply (internal_pages_skipped indexing pages). left. reflexivity.
Defined.

(** C5, where the code departs from it.  The transmission of a visit fails
    and the payload is queued; the retry pass sends it once more, which
    fails again; the pass ends with the empty queue stored. *)
Theorem retry_pass_drops_unsent_payload :
  Invariant.queue (run unreachable pages (start None) one_visit) = [example_payload]
  /\ added unreachable pages (run unreachable pages (start None) one_visit) RetryTick
     = [ StorageGet (str "failedQueue");
         Fetch (Background.index_request example_payload);
         StorageGet (str "failedQueue");
         StorageSet (str "failedQueue");
         StorageSet (str "failedQueue") ]
  /\ failedQueue (Background.store
                    (run unreachable pages (start None) (one_visit ++ [RetryTick])))
     = Some [].
Proof. vm_compute. repeat split. Qed.

(** The items built for the sample results. *)
Example sample_items :
  map (fun r => Popup.createResultElement r 1) found
  = [ {| Popup.item_title := str "Zebra";
         Popup.item_url := str "https://example.com/z";
         Popup.item_snippet := Some (str "stripes");
         Popup.item_meta :=
           str "Distance: 1.0000" ++ Popup.bullet ++ str "Visited: 2025-03-04"
               ++ Popup.bullet ++ str "Chunk 2/2";
         Popup.item_opens := str "https://example.com/z" |};
      {| Popup.item_title := str "Aardvark";
         Popup.item_url := str "https://example.com/a";
         Popup.item_snippet := None;
         Popup.item_meta := str "Distance: 2.0000";
         Popup.item_opens := str "https://example.com/a" |} ].
Proof. reflexivity. Qed.

Lemma empty_query_rejected_witness :
  Popup.trace (exec (Popup.performSearch searching) (popup (str "   ") (str "5"))) = []
  /\ Popup.searchStatus_class
       (Popup.page (exec (Popup.performSearch searching) (popup (str "   ") (str "5"))))
     = str "status error".
Proof.
  destruct (empty_query_rejected searching (popup (str "   ") (str "5")))
    as (_ & Ht & _ & _ & _ & Hc & _); [reflexivity |].
  split; [exact Ht | exact Hc].
Defined.

Lemma top_k_defaults_to_5_witness :
  requests (Popup.trace (exec (Popup.performSearch searching) (popup (str "zebra") (str ""))))
  = [ {| req_url := str "http://localhost:8000/search?query=zebra&top_k=5";
         req_method := str "GET";
         req_headers := [];
         req_body := None |} ].
Proof.
  apply (top_k_defaults_to_5 searching (popup (str "zebra") (str ""))).
  left. reflexivity.
Defined.

Lemma results_shown_in_response_order_witness :
  nth_error (Popup.searchResults
               (Popup.page (exec (Popup.performSearch searching)
                                 (popup (str "zebra") (str "2"))))) 1
  = option_map (fun r => Popup.Item (Popup.createResultElement r 2)) (nth_error found 1).
Proof.
  apply (proj1 (proj2 (results_shown_in_response_order
                         searching (popup (str "zebra") (str "2"))
                         (q := str "zebra")
                         (resp := {| ok := true; statusText := str "OK";
                                     json := Ok {| Popup.results := Some found |} |})
                         (rs := found)
                         eq_refl eq_refl eq_refl eq_refl eq_refl
                         ltac:(discriminate))) 1%nat).
  reflexivity.
Defined.

End Runs.

(* ================================================================== *)
(** * More about the worker *)
(* ================================================================== *)

Section WorkerMore.
Context {P : Platform}.
Variable backend : nat -> fetch_outcome Background.index_result.
Variable scripting : nat -> inject_outcome.
Import Contract Invariant Outcome.

Ltac bg_simpl :=
  cbn [fst snd Background.trace Background.timers Background.store
       Background.log Background.set_timers Background.set_store
       blocklist failedQueue].

(** What [sendToBackend] changes: one request more, and the payload at the
    end of the queue unless it was delivered. *)
Lemma sendToBackend_shape (data : payload) (w : Background.world) :
  Background.timers (snd (Background.sendToBackend backend data w))
  = Background.timers w
  /\ blocklist (Background.store (snd (Background.sendToBackend backend data w)))
     = blocklist (Background.store w)
  /\ requests (Background.trace (snd (Background.sendToBackend backend data w)))
     = requests (Background.trace w) ++ [Background.index_request data]
  /\ filter is_script (Background.trace (snd (Background.sendToBackend backend data w)))
     = filter is_script (Background.trace w)
  /\ (queue (snd (Background.sendToBackend backend data w)) = queue w
      \/ queue (snd (Background.sendToBackend backend data w)) = queue w ++ [data]).
Proof.
  destruct (sendToBackend_run backend data w) as [[result ->] | ->]; bg_simpl;
    rewrite requests_app, filter_app; cbn [requests filter is_script];
    rewrite ?app_nil_r; unfold queue; bg_simpl; auto 10.
Qed.

(** X1.  [sendToBackend] never throws.  When the call is delivered it
    returns the parsed answer and touches no storage; in every other case
    (the call rejects, the status is not ok, the body does not parse) it
    returns [undefined] after putting the payload at the end of the stored
    queue, the blocklist staying as it was. *)
Theorem sendToBackend_queues_what_is_not_delivered
        (data : payload) (w : Background.world) :
  match delivered (backend (List.length (requests (Background.trace w)))) with
  | Some result =>
      Background.sendToBackend backend data w
      = (Ok (Some result), Background.log (Fetch (Background.index_request data)) w)
  | None =>
      fst (Background.sendToBackend backend data w) = Ok None
      /\ failedQueue (Background.store (exec (Background.sendToBackend backend data) w))
         = Some (queue w ++ [data])
      /\ blocklist (Background.store (exec (Background.sendToBackend backend data) w))
         = blocklist (Background.store w)
      /\ requests (Background.trace (exec (Background.sendToBackend backend data) w))
         = requests (Background.trace w) ++ [Background.index_request data]
  end.
Proof.
  unfold exec, Background.sendToBackend, try_catch, bind, Background.fetch,
    delivered, queue.
  destruct (backend _) as [e | [[|] st [j|e]]]; cbn [ok json negb];
    unfold Background.response_json, lift, ret, throw,
      Background.storage_get_failedQueue, Background.storage_set_failedQueue,
      bind, modify, gets; cbn [ok json negb]; bg_simpl;
    try reflexivity;
    (repeat split; rewrite ?requests_app; cbn [requests];
     rewrite ?app_nil_r; reflexivity).
Qed.

(** What the loop of a retry pass changes. *)
Lemma retry_loop_shape (items : list (nat * payload)) :
  forall (successful : list nat) (w : Background.world),
    Background.timers (snd (Background.retry_loop backend items successful w))
    = Background.timers w
    /\ blocklist (Background.store
                    (snd (Background.retry_loop backend items successful w)))
       = blocklist (Background.store w)
    /\ requests (Background.trace
                   (snd (Background.retry_loop backend items successful w)))
       = requests (Background.trace w)
         ++ map (fun item => Background.index_request (snd item)) items
    /\ filter is_script (Background.trace
                           (snd (Background.retry_loop backend items successful w)))
       = filter is_script (Background.trace w)
    /\ fst (Background.retry_loop backend items successful w)
       = Ok (successful ++ map fst items).
Proof.
  induction items as [|[i data] items IH]; intros successful w.
  - cbn [Background.retry_loop ret fst snd map]. rewrite !app_nil_r. auto.
  - cbn [Background.retry_loop]. unfold bind at 1. unfold try_catch, bind.
    destruct (sendToBackend_shape data w) as (Ht & Hb & Hr & Hs & _).
    destruct (sendToBackend_run backend data w) as [[result E] | E];
      rewrite E in *; cbn [fst snd] in *; unfold ret;
      destruct (IH (successful ++ [i]) (snd (Background.sendToBackend backend data w)))
        as (Ht' & Hb' & Hr' & Hs' & Hf'); rewrite E in *; cbn [fst snd] in *;
      rewrite Ht', Hb', Hr', Hs', Hf', Ht, Hb, Hr, Hs; cbn [map fst snd];
      rewrite <- !app_assoc; auto 6.
Qed.

(** What a retry pass changes. *)
Lemma retry_shape (w : Background.world) :
  Background.timers (exec (Background.retryFailedRequests backend) w)
  = Background.timers w
  /\ blocklist (Background.store (exec (Background.retryFailedRequests backend) w))
     = blocklist (Background.store w)
  /\ requests (Background.trace (exec (Background.retryFailedRequests backend) w))
     = requests (Background.trace w) ++ map Background.index_request (queue w)
  /\ filter is_script (Background.trace (exec (Background.retryFailedRequests backend) w))
     = filter is_script (Background.trace w)
  /\ queue (exec (Background.retryFailedRequests backend) w) = [].
Proof.
  unfold exec. rewrite retryFailedRequests_unfold. cbv zeta.
  destruct (queue w) as [|p q] eqn:Eq.
  - bg_simpl. rewrite requests_app, filter_app. cbn [requests filter is_script map].
    rewrite !app_nil_r. unfold queue in *. bg_simpl. auto.
  - set (items := combine (seq 0 (List.length (p :: q))) (p :: q)).
    set (w1 := Background.log (StorageGet (str "failedQueue")) w).
    destruct (retry_loop_shape items [] w1) as (Ht & Hb & Hr & Hs & Hf).
    destruct (Background.retry_loop backend items [] w1) as [[s|e] w2];
      cbn [fst snd] in *; [|discriminate].
    assert (s = [] ++ map fst items) as -> by congruence.
    rewrite (filter_all_successful items []).
    unfold Background.storage_set_failedQueue, bind, modify. bg_simpl.
    rewrite requests_app, filter_app. cbn [requests filter is_script].
    rewrite !app_nil_r, Ht, Hb, Hr, Hs. unfold w1. bg_simpl.
    rewrite requests_app, filter_app. cbn [requests filter is_script].
    rewrite !app_nil_r. unfold queue. bg_simpl.
    replace (map (fun item => Background.index_request (snd item)) items)
      with (map Background.index_request (map snd items))
      by (rewrite map_map; reflexivity).
    unfold items. rewrite map_snd_indexed. auto.
Qed.

(** X2.  A retry pass posts every queued payload once, in the order of
    the queue, and makes no other request; over a queue that is missing or
    empty it reads the storage once and does nothing else. *)
Theorem retry_posts_the_queue_in_order (w : Background.world) :
  requests (Background.trace (exec (Background.retryFailedRequests backend) w))
  = requests (Background.trace w) ++ map Background.index_request (queue w)
  /\ (queue w = [] ->
      Background.retryFailedRequests backend w
      = (Ok tt, Background.log (StorageGet (str "failedQueue")) w)).
Proof.
  split; [apply retry_shape |].
  intros Hq. rewrite retryFailedRequests_unfold, Hq. reflexivity.
Qed.

(** X3.  Whatever the backend answers, a retry pass ends with no payload
    queued: the payloads it could not deliver are not kept for a later
    pass.  The blocklist and the pending timers stay as they were. *)
Theorem retry_pass_leaves_nothing_queued (w : Background.world) :
  queue (exec (Background.retryFailedRequests backend) w) = []
  /\ blocklist (Background.store (exec (Background.retryFailedRequests backend) w))
     = blocklist (Background.store w)
  /\ Background.timers (exec (Background.retryFailedRequests backend) w)
     = Background.timers w.
Proof.
  destruct (retry_shape w) as (Ht & Hb & _ & _ & Hq). auto.
Qed.

(** X4.  The install listener stores the default blocklist only when no
    list is stored: a stored list, even the empty one, is kept; the queue
    is not touched; and running the listener again changes nothing in the
    storage. *)
Theorem onInstalled_keeps_a_stored_list (w : Background.world) :
  blocklist (Background.store (exec Background.onInstalled w))
  = Some (match blocklist (Background.store w) with
          | Some l => l
          | None => Background.defaultBlocklist
          end)
  /\ failedQueue (Background.store (exec Background.onInstalled w))
     = failedQueue (Background.store w)
  /\ Background.store (exec Background.onInstalled (exec Background.onInstalled w))
     = Background.store (exec Background.onInstalled w).
Proof.
  unfold exec, Background.onInstalled, Background.storage_get_blocklist,
    Background.storage_set_blocklist, bind, modify, gets, ret.
  bg_simpl. destruct (blocklist (Background.store w)) eqn:E; bg_simpl;
    rewrite ?E; bg_simpl; auto.
Qed.

(** A stored pattern that matches blocks the URL. *)
Lemma blocklisted_by (w : Background.world) (u pattern : jsstring) :
  In pattern (stored_list w) ->
  Background.pattern_matches u pattern = Ok true ->
  Extension.blocklisted w u = Ok true.
Proof.
  intros Hin Hm. unfold Extension.blocklisted. rewrite isBlocklisted_run.
  cbn [fst].
  destruct (Array_some_total (Background.pattern_matches u) (stored_list w)
              (pattern_matches_total u)) as [b [Hb Hiff]].
  rewrite Hb. f_equal. apply Hiff. eauto.
Qed.

(** A blocklisted visit leaves the timers as they were. *)
Lemma blocked_visit_schedules_nothing (t : tab) (u : jsstring) (w : Background.world) :
  tab_url t = Some u -> Extension.blocklisted w u = Ok true ->
  Background.timers (exec (Background.processPageVisit t) w) = Background.timers w.
Proof.
  intros Hu Hb. unfold exec. rewrite processPageVisit_run, Hu.
  destruct (negb (truthy u) || _ || _); [reflexivity |].
  rewrite Hb. reflexivity.
Qed.

(** X5.  With the default blocklist stored, every URL that contains
    chrome://, chrome-extension://, about: or file:// anywhere is
    blocklisted, on every platform, and a visit to it schedules no
    extraction. *)
Theorem default_blocklist_blocks_local_pages
        (w : Background.world) (t : tab) (u pattern : jsstring) :
  stored_list w = Background.defaultBlocklist ->
  In pattern Background.defaultBlocklist ->
  occurs_in pattern u ->
  tab_url t = Some u ->
  Extension.blocklisted w u = Ok true
  /\ Background.timers (exec (Background.processPageVisit t) w) = Background.timers w.
Proof.
  intros Hs Hin Ho Hu.
  assert (Extension.blocklisted w u = Ok true) as Hb.
  { apply blocklisted_by with pattern; [rewrite Hs; exact Hin |].
    apply includes_spec in Ho.
    unfold Background.defaultBlocklist in Hin. cbn [In] in Hin.
    destruct Hin as [<- | [<- | [<- | [<- | []]]]];
      unfold Background.pattern_matches, Background.pattern_try;
      match goal with
      | |- context [startsWith ?p (str "/") && endsWith ?p (str "/")] =>
          change (startsWith p (str "/") && endsWith p (str "/")) with false
      end; cbn [rcatch]; rewrite Ho; reflexivity. }
  split; [exact Hb | apply blocked_visit_schedules_nothing with u; assumption].
Qed.

(** X6.  While no blocklist is stored, or the stored list is empty, no
    URL is blocklisted, and every visit that passes the guard of
    [processPageVisit] schedules its extraction behind those pending. *)
Theorem missing_blocklist_blocks_nothing (w : Background.world) (t : tab) :
  stored_list w = [] ->
  (forall u, Extension.blocklisted w u = Ok false)
  /\ (capturable t ->
      Background.timers (exec (Background.processPageVisit t) w)
      = Background.timers w ++ [t]).
Proof.
  intros Hs.
  assert (forall u, Extension.blocklisted w u = Ok false) as Hb.
  { intros u. unfold Extension.blocklisted. rewrite isBlocklisted_run, Hs.
    reflexivity. }
  split; [exact Hb |].
  intros (u & Hu & Ht & Hc & He). unfold exec.
  rewrite processPageVisit_run, Hu, Ht, Hc, He, Hb. reflexivity.
Qed.

(** X7.  Adding patterns to the stored list never unblocks a URL: what is
    blocklisted under a list is blocklisted under every list that holds
    its patterns. *)
Theorem blocklist_grows_monotonically (w w' : Background.world) (u : jsstring) :
  incl (stored_list w) (stored_list w') ->
  Extension.blocklisted w u = Ok true ->
  Extension.blocklisted w' u = Ok true.
Proof.
  intros Hincl Hb. unfold Extension.blocklisted in Hb.
  rewrite isBlocklisted_run in Hb. cbn [fst] in Hb.
  destruct (Array_some_total (Background.pattern_matches u) (stored_list w)
              (pattern_matches_total u)) as [b [Hb' Hiff]].
  rewrite Hb' in Hb. assert (b = true) as Hbt by congruence.
  apply Hiff in Hbt. destruct Hbt as [pattern [Hin Hm]].
  apply blocklisted_by with pattern; [apply Hincl, Hin | exact Hm].
Qed.

(** X8.  A stored list that holds the empty pattern blocklists every URL:
    the empty string occurs in every string. *)
Theorem empty_pattern_blocks_every_url (w : Background.world) (u : jsstring) :
  In [] (stored_list w) -> Extension.blocklisted w u = Ok true.
Proof.
  intros Hin. apply blocklisted_by with []; [exact Hin |].
  unfold Background.pattern_matches, Background.pattern_try.
  cbn [startsWith andb rcatch]. destruct u; reflexivity.
Qed.

(** What [processPageVisit] changes: at most the timers, by one. *)
Lemma processPageVisit_shape (t : tab) (w : Background.world) :
  requests (Background.trace (exec (Background.processPageVisit t) w))
  = requests (Background.trace w)
  /\ filter is_script (Background.trace (exec (Background.processPageVisit t) w))
     = filter is_script (Background.trace w)
  /\ Background.store (exec (Background.processPageVisit t) w) = Background.store w
  /\ (Background.timers (exec (Background.processPageVisit t) w) = Background.timers w
      \/ Background.timers (exec (Background.processPageVisit t) w)
         = Background.timers w ++ [t]).
Proof.
  unfold exec. rewrite processPageVisit_run.
  destruct (tab_url t) as [u|]; [|auto].
  destruct (negb (truthy u) || _ || _); [auto |].
  cbv zeta. destruct (Extension.blocklisted w u) as [[|]|e]; bg_simpl;
    rewrite requests_app, filter_app; cbn [requests filter is_script];
    rewrite !app_nil_r; auto.
Qed.

(** What the callback of a visit changes. *)
Lemma visit_callback_shape (t : tab) (w : Background.world) :
  Background.timers (snd (Background.visit_callback backend scripting t w))
  = Background.timers w
  /\ blocklist (Background.store (snd (Background.visit_callback backend scripting t w)))
     = blocklist (Background.store w)
  /\ List.length (requests (Background.trace
                              (snd (Background.visit_callback backend scripting t w))))
     + List.length (queue (snd (Background.visit_callback backend scripting t w)))
     <= List.length (requests (Background.trace w)) + List.length (queue w) + 2.
Proof.
  rewrite visit_callback_run. cbv zeta.
  assert (forall e, is_fetch e = false ->
            List.length (requests (Background.trace (Background.log e w)))
            + List.length (queue (Background.log e w))
            <= List.length (requests (Background.trace w)) + List.length (queue w) + 2)
    as Hlog.
  { intros e He. bg_simpl. rewrite requests_app.
    destruct e; try discriminate; cbn [requests]; rewrite app_nil_r;
      unfold queue; bg_simpl; lia. }
  destruct (scripting _) as [e| |d]; bg_simpl;
    try (split; [reflexivity | split; [reflexivity | apply Hlog; reflexivity]]).
  destruct (truthy _);
    [|bg_simpl; split; [reflexivity | split; [reflexivity | apply Hlog; reflexivity]]].
  cbn [snd].
  match goal with
  | |- context [Background.sendToBackend backend ?data ?w1] =>
      destruct (sendToBackend_shape data w1) as (Ht & Hb & Hr & _ & Hq)
  end.
  rewrite Ht, Hb, Hr. bg_simpl. rewrite !length_app, requests_app.
  cbn [requests]. rewrite app_nil_r. cbn [List.length].
  split; [reflexivity | split; [reflexivity |]].
  destruct Hq as [-> | ->]; rewrite ?length_app; unfold queue; bg_simpl;
    cbn [List.length]; lia.
Qed.

(** What the events other than a timer and a retry pass leave alone. *)
Lemma quiet_step (w : Background.world) (e : Extension.event) :
  e <> Extension.TimerFires -> e <> Extension.RetryTick ->
  requests (Background.trace (Extension.step backend scripting w e))
  = requests (Background.trace w)
  /\ filter is_script (Background.trace (Extension.step backend scripting w e))
     = filter is_script (Background.trace w)
  /\ failedQueue (Background.store (Extension.step backend scripting w e))
     = failedQueue (Background.store w).
Proof.
  intros Ht Hr. destruct e as [| status t | t | | | value]; try congruence;
    cbn [Extension.step].
  - unfold exec, Background.onInstalled, Background.storage_get_blocklist,
      Background.storage_set_blocklist, bind, modify, gets, ret. bg_simpl.
    destruct (blocklist (Background.store w)); bg_simpl;
      rewrite !requests_app, !filter_app; cbn [requests filter is_script];
      rewrite !app_nil_r; auto.
  - unfold Background.onUpdated. destruct (_ && _); [|auto].
    destruct (processPageVisit_shape t w) as (H1 & H2 & H3 & _).
    rewrite H1, H2, H3. auto.
  - unfold Background.onActivated. destruct (_ && _); [|auto].
    destruct (processPageVisit_shape t w) as (H1 & H2 & H3 & _).
    rewrite H1, H2, H3. auto.
  - bg_simpl. auto.
Qed.

(** X9.  Tab events, the install event and a saved blocklist never send
    anything, inject no script and leave the queue alone: only a timer and
    a retry pass make requests. *)
Theorem only_timers_and_retries_send (w : Background.world) (e : Extension.event) :
  e <> Extension.TimerFires -> e <> Extension.RetryTick ->
  requests (Background.trace (Extension.step backend scripting w e))
  = requests (Background.trace w)
  /\ filter is_script (Background.trace (Extension.step backend scripting w e))
     = filter is_script (Background.trace w)
  /\ failedQueue (Background.store (Extension.step backend scripting w e))
     = failedQueue (Background.store w).
Proof. apply quiet_step. Qed.

(** X11.  The worker never changes a stored blocklist: after every event
    other than a save from the popup, the list that was stored is still
    the one stored. *)
Theorem worker_never_edits_a_stored_blocklist
        (w : Background.world) (e : Extension.event) (l : list jsstring) :
  is_save e = false ->
  blocklist (Background.store w) = Some l ->
  blocklist (Background.store (Extension.step backend scripting w e)) = Some l.
Proof.
  intros He Hl. destruct e as [| status t | t | | | value]; try discriminate;
    cbn [Extension.step].
  - unfold exec, Background.onInstalled, Background.storage_get_blocklist,
      Background.storage_set_blocklist, bind, modify, gets, ret. bg_simpl.
    rewrite Hl. bg_simpl. exact Hl.
  - unfold Background.onUpdated. destruct (_ && _); [|exact Hl].
    destruct (processPageVisit_shape t w) as (_ & _ & H3 & _).
    rewrite H3. exact Hl.
  - unfold Background.onActivated. destruct (_ && _); [|exact Hl].
    destruct (processPageVisit_shape t w) as (_ & _ & H3 & _).
    rewrite H3. exact Hl.
  - unfold exec, Background.timer_fires.
    destruct (Background.timers w) as [|t rest]; [exact Hl |].
    destruct (visit_callback_shape t (Background.set_timers rest w)) as (_ & H2 & _).
    rewrite H2. exact Hl.
  - destruct (retry_shape w) as (_ & H2 & _). rewrite H2. exact Hl.
Qed.

(** X12.  When the injection rejects, gives no result, or extracts a text
    that is empty once trimmed, the callback of a visit ends after that one
    injection: it makes no request, queues nothing, writes nothing and
    throws nothing. *)
Theorem page_without_text_is_dropped (t : tab) (w : Background.world) :
  match scripting (List.length (filter is_script (Background.trace w))) with
  | InjectRan d => Background.content_text (Background.extractTextContent d) = []
  | _ => True
  end ->
  Background.visit_callback backend scripting t w
  = (Ok tt, Background.log (ExecuteScript (tab_id t)) w).
Proof.
  intros H. rewrite visit_callback_run. cbv zeta.
  destruct (scripting _) as [e| |d]; try reflexivity.
  rewrite H. reflexivity.
Qed.

(** The callback of a visit sends nothing and queues nothing, or sends one
    payload and queues at most that one. *)
Lemma visit_callback_attempts (t : tab) (w : Background.world) :
  (requests (Background.trace (snd (Background.visit_callback backend scripting t w)))
   = requests (Background.trace w)
   /\ queue (snd (Background.visit_callback backend scripting t w)) = queue w)
  \/ exists data,
       requests (Background.trace (snd (Background.visit_callback backend scripting t w)))
       = requests (Background.trace w) ++ [Background.index_request data]
       /\ (queue (snd (Background.visit_callback backend scripting t w)) = queue w
           \/ queue (snd (Background.visit_callback backend scripting t w))
              = queue w ++ [data]).
Proof.
  rewrite visit_callback_run. cbv zeta.
  assert (requests (Background.trace (Background.log (ExecuteScript (tab_id t)) w))
          = requests (Background.trace w)
          /\ queue (Background.log (ExecuteScript (tab_id t)) w) = queue w) as Hlog.
  { bg_simpl. rewrite requests_app. cbn [requests]. rewrite app_nil_r.
    unfold queue. bg_simpl. auto. }
  destruct (scripting _) as [e| |d]; cbn [snd]; try (left; exact Hlog).
  destruct (truthy _); cbn [snd]; [|left; exact Hlog].
  right. exists (capture t (Background.extractTextContent d)).
  destruct (sendToBackend_shape (capture t (Background.extractTextContent d))
              (Background.log (ExecuteScript (tab_id t)) w))
    as (_ & _ & Hr & _ & Hq).
  destruct Hlog as [Hlr Hlq]. rewrite Hr, Hlr. split; [reflexivity |].
  rewrite <- Hlq. exact Hq.
Qed.

(** X22.  In every run from a fresh worker, a payload in the stored queue
    is one the worker has already tried to send: nothing is queued that was
    not first posted to the indexing endpoint. *)
Theorem queued_payloads_were_attempted
        (bl : option (list jsstring)) (evs : list Extension.event) (data : payload) :
  In data (queue (Extension.run backend scripting (Extension.start bl) evs)) ->
  In (Background.index_request data)
     (requests (Background.trace
                  (Extension.run backend scripting (Extension.start bl) evs))).
Proof.
  revert data. induction evs as [|e evs IH] using rev_ind; intros data.
  - intros [].
  - rewrite run_snoc.
    set (w := Extension.run backend scripting (Extension.start bl) evs) in *.
    destruct e as [| status t | t | | | value].
    + destruct (@quiet_step w Extension.Installed) as (Hr & _ & Hq);
        try discriminate.
      unfold queue. rewrite Hr, Hq. apply IH.
    + destruct (@quiet_step w (Extension.TabUpdated status t)) as (Hr & _ & Hq);
        try discriminate.
      unfold queue. rewrite Hr, Hq. apply IH.
    + destruct (@quiet_step w (Extension.TabActivated t)) as (Hr & _ & Hq);
        try discriminate.
      unfold queue. rewrite Hr, Hq. apply IH.
    + cbn [Extension.step]. unfold exec, Background.timer_fires.
      destruct (Background.timers w) as [|t rest]; [apply IH |].
      destruct (visit_callback_attempts t (Background.set_timers rest w))
        as [[Hr Hq] | [sent [Hr Hq]]]; rewrite Hr.
      * rewrite Hq. apply IH.
      * intros Hin. apply in_or_app.
        destruct Hq as [Hq | Hq]; rewrite Hq in Hin.
        -- left. apply IH. exact Hin.
        -- apply in_app_or in Hin. destruct Hin as [Hin | [<- | []]].
           ++ left. apply IH. exact Hin.
           ++ right. left. reflexivity.
    + cbn [Extension.step]. destruct (retry_shape w) as (_ & _ & _ & _ & Hq).
      rewrite Hq. intros [].
    + destruct (@quiet_step w (Extension.BlocklistSaved value)) as (Hr & _ & Hq);
        try discriminate.
      unfold queue. rewrite Hr, Hq. apply IH.
Qed.

(** The oldest callback leaves the timers. *)
Lemma timer_fires_pops (t : tab) (rest : list tab) (w : Background.world) :
  Background.timers w = t :: rest ->
  Background.timers (Extension.step backend scripting w Extension.TimerFires) = rest.
Proof.
  intros Hti. cbn [Extension.step]. unfold exec, Background.timer_fires.
  rewrite Hti.
  destruct (visit_callback_shape t (Background.set_timers rest w)) as (Ht & _).
  rewrite Ht. reflexivity.
Qed.

(** Once the callbacks pending before it have run, a callback is the
    oldest. *)
Lemma timers_drain (pending : list tab) :
  forall (later : list tab) (w : Background.world),
    Background.timers w = pending ++ later ->
    Background.timers
      (Extension.run backend scripting w
                     (repeat Extension.TimerFires (List.length pending)))
    = later.
Proof.
  induction pending as [|t pending IH]; intros later w Hti.
  - exact Hti.
  - cbn [List.length repeat]. unfold Extension.run. cbn [fold_left].
    apply IH. apply timer_fires_pops with t. exact Hti.
Qed.

(** The requests the callback of a visit adds. *)
Lemma visit_callback_requests (t : tab) (w : Background.world) :
  requests (Background.trace (snd (Background.visit_callback backend scripting t w)))
  = requests (Background.trace w) ++
    match scripting (List.length (filter is_script (Background.trace w))) with
    | InjectRan d =>
        if truthy (Background.content_text (Background.extractTextContent d))
        then [Background.index_request (capture t (Background.extractTextContent d))]
        else []
    | _ => []
    end.
Proof.
  rewrite visit_callback_run. cbv zeta.
  assert (requests (Background.trace (Background.log (ExecuteScript (tab_id t)) w))
          = requests (Background.trace w)) as Hlog.
  { bg_simpl. rewrite requests_app. cbn [requests]. apply app_nil_r. }
  destruct (scripting _) as [e| |d]; cbn [snd];
    try (rewrite Hlog, app_nil_r; reflexivity).
  destruct (truthy _); cbn [snd]; [|rewrite Hlog, app_nil_r; reflexivity].
  destruct (sendToBackend_shape (capture t (Background.extractTextContent d))
              (Background.log (ExecuteScript (tab_id t)) w)) as (_ & _ & Hr & _).
  rewrite Hr, Hlog. reflexivity.
Qed.

(** The indexing request of a payload that has a URL. *)
Lemma index_request_five_fields (data : payload) (u : jsstring) :
  url data = Some u ->
  Background.index_request data
  = five_field_request u (title data) (description data) (text data) (timestamp data).
Proof.
  intros Hu. unfold Background.index_request, five_field_request, to_object.
  rewrite Hu. reflexivity.
Qed.

(** C3.  The capture agent hands the core exactly the five fields url,
    title, description, text and timestamp.  When the callback of a visit
    to a tab with a URL runs, the requests grow by exactly this: one POST
    to the indexing endpoint, its body the serialization of the five keys
    with the tab's URL, the title, description and text of the content
    extracted from the page and the ISO-8601 clock reading the extraction
    took, if the injection ran and extracted some text; nothing otherwise.
    A visit that passes the guard and the blocklist sends nothing by itself
    and has that callback run once those pending before it have run.  And
    every request of every run, a re-send from the queue included, has a
    body of exactly these five keys. *)
Theorem capture_sends_five_fields
        (t : tab) (w : Background.world)
        (bl : option (list jsstring)) (evs : list Extension.event) :
  (forall u rest,
      tab_url t = Some u -> Background.timers w = t :: rest ->
      Background.timers (Extension.step backend scripting w Extension.TimerFires)
      = rest
      /\ requests (Background.trace
                     (Extension.step backend scripting w Extension.TimerFires))
         = requests (Background.trace w) ++
           match scripting (List.length (filter is_script (Background.trace w))) with
           | InjectRan d =>
               if truthy (Background.content_text (Background.extractTextContent d))
               then [five_field_request
                       u
                       (Background.content_title (Background.extractTextContent d))
                       (Background.content_description (Background.extractTextContent d))
                       (Background.content_text (Background.extractTextContent d))
                       (now_iso d)]
               else []
           | _ => []
           end)
  /\ (forall u,
         tab_url t = Some u -> truthy u = true ->
         startsWith u (str "chrome://") = false ->
         startsWith u (str "chrome-extension://") = false ->
         Extension.blocklisted w u = Ok false ->
         requests (Background.trace (exec (Background.processPageVisit t) w))
         = requests (Background.trace w)
         /\ Background.timers
              (Extension.run backend scripting
                             (exec (Background.processPageVisit t) w)
                             (repeat Extension.TimerFires
                                     (List.length (Background.timers w))))
            = [t])
  /\ (forall r,
         In r (requests (Background.trace
                           (Extension.run backend scripting (Extension.start bl) evs))) ->
         exists u title description text timestamp,
           r = five_field_request u title description text timestamp).
Proof.
  split; [|split].
  - intros u rest Hu Hti. split; [apply timer_fires_pops with t; exact Hti |].
    cbn [Extension.step]. unfold exec, Background.timer_fires. rewrite Hti.
    rewrite visit_callback_requests. cbn [Background.set_timers Background.trace].
    destruct (scripting _) as [e| |d]; try reflexivity.
    destruct (truthy _); [|reflexivity].
    rewrite (@index_request_five_fields
               (capture t (Background.extractTextContent d)) u Hu).
    reflexivity.
  - intros u Hu Ht Hc He Hb.
    destruct (processPageVisit_shape t w) as (Hr & _ & _ & _).
    split; [exact Hr |].
    apply timers_drain. unfold exec.
    rewrite processPageVisit_run, Hu, Ht, Hc, He, Hb. reflexivity.
  - intros r Hr. destruct (run_cleared backend scripting bl evs) as (Hreq & _ & _).
    rewrite Forall_forall in Hreq.
    destruct (Hreq r Hr) as [data [-> [u [Hu _]]]].
    exists u, (title data), (description data), (text data), (timestamp data).
    apply index_request_five_fields, Hu.
Qed.

End WorkerMore.

(* ================================================================== *)
(** * More about the popup *)
(* ================================================================== *)

Section PopupMore.
Context {P : Platform}.
Variable backend : nat -> fetch_outcome Popup.search_data.
Import Invariant Outcome.

Local Arguments str : simpl never.
Local Arguments Number_toString : simpl never.

Ltac pp_simpl :=
  cbn [fst snd Popup.trace Popup.page Popup.store Popup.timers Popup.log].

(** A search whose [try] block throws: the [catch] clears the results and
    reports the message, the [finally] enables the button. *)
Lemma performSearch_error (w : Popup.world) (e : exn) :
  truthy (trim (Popup.searchQuery_value (Popup.page w))) = true ->
  search_error (encodeURIComponent (trim (Popup.searchQuery_value (Popup.page w))))
               (backend (List.length (requests (Popup.trace w)))) = Some e ->
  Popup.performSearch backend w
  = (Ok tt,
     {| Popup.store := Popup.store w;
        Popup.page :=
          Popup.set_searchBtn_disabled false
            (Popup.set_searchStatus_class (str "status error")
               (Popup.set_searchStatus_text (str "Search failed: " ++ exn_message e)
                  (Popup.set_innerHTML (str "") (searching_page (Popup.page w)))));
        Popup.timers := Popup.timers w;
        Popup.trace :=
          Popup.trace w ++
          match encodeURIComponent (trim (Popup.searchQuery_value (Popup.page w))) with
          | Some q =>
              [Fetch (search_request
                        q (number_or (parseInt (Popup.topK_value (Popup.page w))) 5))]
          | None => []
          end |}).
Proof.
  intros Hq He. destruct w as [s d ti tr]. cbn [Popup.page Popup.trace] in *.
  unfold Popup.performSearch, searching_page.
  unfold bind at 1. unfold gets at 1. cbv beta iota.
  unfold bind at 1. unfold gets at 1. cbv beta iota. cbv zeta.
  cbn [Popup.page]. rewrite Hq. cbn [negb].
  unfold try_finally, try_catch, bind, Popup.set_page, modify, ret, throw.
  pp_simpl. unfold search_error in He.
  destruct (encodeURIComponent _) as [q|].
  - unfold Popup.fetch. pp_simpl.
    destruct (backend _) as [e' | [okay st j]].
    + injection He as <-. pp_simpl. reflexivity.
    + cbn [ok json] in *. destruct okay; cbn [negb].
      * unfold Popup.response_json, lift. cbn [json].
        destruct j as [v|e']; [discriminate |].
        injection He as <-. pp_simpl. reflexivity.
      * injection He as <-. pp_simpl. reflexivity.
  - injection He as <-. pp_simpl. rewrite app_nil_r. reflexivity.
Qed.

(** A search whose [try] block ends normally. *)
Lemma performSearch_answer (w : Popup.world) (v : Popup.search_data) :
  truthy (trim (Popup.searchQuery_value (Popup.page w))) = true ->
  search_error (encodeURIComponent (trim (Popup.searchQuery_value (Popup.page w))))
               (backend (List.length (requests (Popup.trace w)))) = None ->
  delivered (backend (List.length (requests (Popup.trace w)))) = Some v ->
  Popup.performSearch backend w
  = (Ok tt,
     {| Popup.store := Popup.store w;
        Popup.page :=
         Popup.set_searchBtn_disabled false
         match Popup.results v with
         | Some (r :: rs) =>
             Popup.set_searchStatus_class (str "status success")
               (Popup.set_searchStatus_text
                  (str "Found "
                     ++ Number_toString (Z.of_nat (List.length (r :: rs)))
                     ++ str " result(s)")
                  (Popup.set_searchResults
                     (map (fun ir => Popup.Item
                                       (Popup.createResultElement (snd ir) (fst ir + 1)))
                          (combine (seq 0 (List.length (r :: rs))) (r :: rs)))
                     (searching_page (Popup.page w))))
         | _ =>
             Popup.set_searchStatus_class (str "status info")
               (Popup.set_searchStatus_text (str "No matching pages found")
                  (Popup.set_innerHTML Popup.no_results_markup
                     (searching_page (Popup.page w))))
         end;
        Popup.timers := Popup.timers w;
        Popup.trace :=
          Popup.trace w ++
          match encodeURIComponent (trim (Popup.searchQuery_value (Popup.page w))) with
          | Some q =>
              [Fetch (search_request
                        q (number_or (parseInt (Popup.topK_value (Popup.page w))) 5))]
          | None => []
          end |}).
Proof.
  intros Hq He Hd. destruct w as [s d ti tr]. cbn [Popup.page Popup.trace] in *.
  unfold Popup.performSearch, searching_page.
  unfold bind at 1. unfold gets at 1. cbv beta iota.
  unfold bind at 1. unfold gets at 1. cbv beta iota. cbv zeta.
  cbn [Popup.page]. rewrite Hq. cbn [negb].
  unfold try_finally, try_catch, bind, Popup.set_page, modify, ret, throw.
  pp_simpl. unfold search_error in He. unfold delivered in Hd.
  destruct (encodeURIComponent _) as [q|]; [|discriminate].
  unfold Popup.fetch. pp_simpl.
  destruct (backend _) as [e' | [okay st j]]; [discriminate |].
  cbn [ok json] in *. destruct okay; [|discriminate]. cbn [negb].
  unfold Popup.response_json, lift. cbn [json].
  destruct j as [v'|e']; [|discriminate]. injection Hd as ->.
  destruct v as [[[|r rs]|]]; cbn [Popup.results List.length Nat.eqb]; pp_simpl;
    try reflexivity.
  rewrite show_results_run. pp_simpl. destruct d. reflexivity.
Qed.

Lemma no_search_error_delivers {J} (enc : option jsstring) (o : fetch_outcome J) :
  search_error enc o = None -> exists v, delivered o = Some v.
Proof.
  unfold search_error, delivered. destruct enc; [|discriminate].
  destruct o as [e | [[|] st [v|e]]]; cbn [ok json]; try discriminate. eauto.
Qed.

(** X13.  A search never throws, whatever the backend does; it leaves the
    storage alone; and once the query is accepted it always ends with the
    search button enabled again. *)
Theorem search_never_throws_and_reenables_the_button (w : Popup.world) :
  fst (Popup.performSearch backend w) = Ok tt
  /\ Popup.store (exec (Popup.performSearch backend) w) = Popup.store w
  /\ (truthy (trim (Popup.searchQuery_value (Popup.page w))) = true ->
      Popup.searchBtn_disabled (Popup.page (exec (Popup.performSearch backend) w))
      = false).
Proof.
  destruct (truthy (trim (Popup.searchQuery_value (Popup.page w)))) eqn:Hq.
  - destruct (search_error
                (encodeURIComponent (trim (Popup.searchQuery_value (Popup.page w))))
                (backend (List.length (requests (Popup.trace w))))) as [e|] eqn:He.
    + unfold exec. rewrite (performSearch_error w Hq He). pp_simpl. auto.
    + destruct (no_search_error_delivers _ _ He) as [v Hv].
      unfold exec. rewrite (performSearch_answer w Hq He Hv). pp_simpl.
      repeat split.
  - destruct w as [s d ti tr]. cbn [Popup.page] in Hq.
    unfold exec, Popup.performSearch, bind, gets. cbn [Popup.page].
    rewrite Hq. cbn [negb].
    unfold Popup.set_page, Popup.setTimeout, modify. pp_simpl.
    repeat split. discriminate.
Qed.

(** X14.  A search that fails clears the results and shows the failure
    in the status line with the class [status error]: the message of the
    exception when the query cannot be encoded (no request is then made),
    when the call rejects, or when the body does not parse; and for a
    status that is not ok the status text, the prefix [Search failed: ]
    then standing twice. *)
Theorem search_failure_is_reported (w : Popup.world) :
  truthy (trim (Popup.searchQuery_value (Popup.page w))) = true ->
  forall e,
    search_error (encodeURIComponent (trim (Popup.searchQuery_value (Popup.page w))))
                 (backend (List.length (requests (Popup.trace w)))) = Some e ->
    Popup.searchResults (Popup.page (exec (Popup.performSearch backend) w)) = []
    /\ Popup.searchStatus_text (Popup.page (exec (Popup.performSearch backend) w))
       = str "Search failed: " ++ exn_message e
    /\ Popup.searchStatus_class (Popup.page (exec (Popup.performSearch backend) w))
       = str "status error"
    /\ (forall r, backend (List.length (requests (Popup.trace w))) = Responds r ->
                  ok r = false ->
                  encodeURIComponent (trim (Popup.searchQuery_value (Popup.page w)))
                  <> None ->
                  exn_message e = str "Search failed: " ++ statusText r)
    /\ (encodeURIComponent (trim (Popup.searchQuery_value (Popup.page w))) = None ->
        Popup.trace (exec (Popup.performSearch backend) w) = Popup.trace w
        /\ exn_message e = str "URI malformed").
Proof.
  intros Hq e He. unfold exec. rewrite (performSearch_error w Hq He). pp_simpl.
  split; [reflexivity |]. split; [reflexivity |]. split; [reflexivity |]. split.
  - intros r Hr Hok Henc. unfold search_error in He.
    destruct (encodeURIComponent _); [|congruence].
    rewrite Hr, Hok in He. injection He as <-. reflexivity.
  - intros Henc. unfold search_error in He. rewrite Henc in He.
    injection He as <-. rewrite Henc. split; [apply app_nil_r | reflexivity].
Qed.

(** X15.  An answer that holds no result, its [results] missing or empty,
    is shown as the line "No results found" with the status "No matching
    pages found" and the class [status info]; no item is built. *)
Theorem empty_answer_is_shown_as_no_results
        (w : Popup.world) (q : jsstring) (resp : response Popup.search_data)
        (v : Popup.search_data) :
  truthy (trim (Popup.searchQuery_value (Popup.page w))) = true ->
  encodeURIComponent (trim (Popup.searchQuery_value (Popup.page w))) = Some q ->
  backend (List.length (requests (Popup.trace w))) = Responds resp ->
  ok resp = true ->
  json resp = Ok v ->
  Popup.results v = None \/ Popup.results v = Some [] ->
  Popup.searchResults (Popup.page (exec (Popup.performSearch backend) w))
  = [Popup.Markup Popup.no_results_markup]
  /\ Popup.searchStatus_text (Popup.page (exec (Popup.performSearch backend) w))
     = str "No matching pages found"
  /\ Popup.searchStatus_class (Popup.page (exec (Popup.performSearch backend) w))
     = str "status info".
Proof.
  intros Hq Henc Hb Hok Hj Hv.
  assert (search_error
            (encodeURIComponent (trim (Popup.searchQuery_value (Popup.page w))))
            (backend (List.length (requests (Popup.trace w)))) = None) as He.
  { unfold search_error. rewrite Henc, Hb, Hok, Hj. reflexivity. }
  assert (delivered (backend (List.length (requests (Popup.trace w)))) = Some v) as Hd.
  { unfold delivered. rewrite Hb, Hok, Hj. reflexivity. }
  unfold exec. rewrite (performSearch_answer w Hq He Hd). pp_simpl.
  destruct Hv as [-> | ->]; repeat split.
Qed.

(** X16.  The snippet of an item is there exactly when the result has a
    chunk text that is not empty; it is that text when the text has at most
    150 code units, and otherwise its first 150 code units followed by
    three dots, so that it never exceeds 153. *)
Theorem snippet_is_bounded (r : Popup.search_result) (rank : nat) :
  match Popup.item_snippet (Popup.createResultElement r rank) with
  | Some snippet =>
      exists t, Popup.chunk_text r = Some t /\ t <> [] /\
                List.length snippet <= 153 /\
                (List.length t <= 150 -> snippet = t) /\
                (150 < List.length t -> snippet = firstn 150 t ++ str "...")
  | None => Popup.chunk_text r = None \/ Popup.chunk_text r = Some []
  end.
Proof.
  unfold Popup.createResultElement. cbn [Popup.item_snippet].
  destruct (Popup.chunk_text r) as [t|]; [|auto].
  destruct t as [|c t]; cbn [truthy]; [auto |].
  exists (c :: t). split; [reflexivity |]. split; [discriminate |].
  destruct (150 <? List.length (c :: t)) eqn:Hl.
  - apply Nat.ltb_lt in Hl. unfold substring0.
    rewrite length_app, length_firstn. change (List.length (str "...")) with 3.
    split; [lia |]. split; [intros H; exfalso; lia | reflexivity].
  - apply Nat.ltb_ge in Hl.
    split; [lia |]. split; [reflexivity | intros H; exfalso; lia].
Qed.

(** X17.  When the top_k input starts with an integer of magnitude at most
    2^53, which a Number holds exactly, the search asks for that integer,
    negative ones included, except that zero is replaced by 5. *)
Theorem top_k_sends_the_parsed_integer (w : Popup.world) (k : Z) :
  parseInt (Popup.topK_value (Popup.page w)) = Some k ->
  (Z.abs k <= 2 ^ 53)%Z ->
  requests (Popup.trace (exec (Popup.performSearch backend) w)) =
  requests (Popup.trace w) ++
  (if truthy (trim (Popup.searchQuery_value (Popup.page w))) then
     match encodeURIComponent (trim (Popup.searchQuery_value (Popup.page w))) with
     | Some q =>
         [ {| req_url := BACKEND_URL ++ str "/search?query=" ++ q ++ str "&top_k="
                                     ++ Number_toString (if (k =? 0)%Z then 5%Z else k);
              req_method := str "GET";
              req_headers := [];
              req_body := None |} ]
     | None => []
     end
   else []).
Proof.
  intros Hk _. rewrite performSearch_requests, Hk. reflexivity.
Qed.

End PopupMore.

(* ================================================================== *)
(** * The blocklist editor and the connection check *)
(* ================================================================== *)

Section EditorFacts.
Import Outcome.

Local Arguments str : simpl never.

Lemma split_pieces_have_no_separator (sep : code_unit) (s : jsstring) :
  forall piece, In piece (Js.split sep s) -> ~ In sep piece.
Proof.
  induction s as [|c s IH]; cbn [Js.split]; intros piece Hin.
  - destruct Hin as [<- | []]. intros [].
  - destruct (N.eqb_spec c sep) as [-> | Hne].
    + destruct Hin as [<- | Hin]; [intros [] | apply IH, Hin].
    + destruct (Js.split sep s) as [|p ps] eqn:E.
      * destruct Hin as [<- | []]. intros [H | []]. congruence.
      * destruct Hin as [<- | Hin].
        -- intros [H | H]; [congruence |]. apply (IH p); [left; reflexivity | exact H].
        -- apply IH. right. exact Hin.
Qed.

Lemma split_plain (sep : code_unit) (x : jsstring) :
  ~ In sep x -> Js.split sep x = [x].
Proof.
  induction x as [|c x IH]; intros Hn; cbn [Js.split]; [reflexivity |].
  destruct (N.eqb_spec c sep) as [-> | Hne]; [destruct Hn; left; reflexivity |].
  rewrite IH; [reflexivity |]. intros H. apply Hn. right. exact H.
Qed.

Lemma split_app (sep : code_unit) (x rest : jsstring) :
  ~ In sep x -> Js.split sep (x ++ sep :: rest) = x :: Js.split sep rest.
Proof.
  induction x as [|c x IH]; intros Hn; cbn [Js.split app].
  - rewrite N.eqb_refl. reflexivity.
  - destruct (N.eqb_spec c sep) as [-> | Hne]; [destruct Hn; left; reflexivity |].
    rewrite IH; [reflexivity |]. intros H. apply Hn. right. exact H.
Qed.

Lemma split_join (sep : code_unit) (l : list jsstring) :
  l <> [] -> (forall x, In x l -> ~ In sep x) ->
  Js.split sep (join [sep] l) = l.
Proof.
  induction l as [|x l IH]; intros Hne Hl; [congruence |].
  destruct l as [|y l].
  - cbn [join]. apply split_plain, Hl. left. reflexivity.
  - change (join [sep] (x :: y :: l)) with (x ++ sep :: join [sep] (y :: l)).
    rewrite split_app by (apply Hl; left; reflexivity).
    rewrite IH; [reflexivity | discriminate |].
    intros z Hz. apply Hl. right. exact Hz.
Qed.

Lemma In_trimStart (c : code_unit) (s : jsstring) : In c (trimStart s) -> In c s.
Proof.
  induction s as [|d s IH]; cbn [trimStart]; [auto |].
  destruct (is_whitespace d); [intros H; right; apply IH, H | auto].
Qed.

Lemma In_trim (c : code_unit) (s : jsstring) : In c (trim s) -> In c s.
Proof.
  unfold trim, trimEnd. intros H. apply In_trimStart.
  apply in_rev in H. apply In_trimStart in H. apply in_rev in H. exact H.
Qed.

(** The lines of a textarea that are stored. *)
Lemma saved_line_clean (value line : jsstring) :
  In line (Popup.saved_lines value) ->
  line <> [] /\ trim line = line /\ ~ In 10%N line.
Proof.
  unfold Popup.saved_lines. intros H. apply filter_In in H.
  destruct H as [Hin Hlen]. apply in_map_iff in Hin.
  destruct Hin as [piece [<- Hp]]. split; [|split].
  - intros E. rewrite E in Hlen. discriminate.
  - apply trim_idempotent.
  - intros Hc. apply In_trim in Hc.
    apply (split_pieces_have_no_separator 10%N value piece Hp Hc).
Qed.

Lemma clean_lines_saved_as_they_are (l : list jsstring) :
  (forall line, In line l -> line <> [] /\ trim line = line /\ ~ In 10%N line) ->
  Popup.saved_lines (join [10%N] l) = l.
Proof.
  intros Hl. destruct l as [|x l]; [reflexivity |].
  unfold Popup.saved_lines. rewrite split_join;
    [| discriminate | intros y Hy; apply (Hl y Hy)].
  rewrite (map_ext_in trim (fun y => y)) by (intros y Hy; apply (Hl y Hy)).
  rewrite map_id. apply forallb_filter_id. apply forallb_forall.
  intros y Hy. destruct (Hl y Hy) as [Hne _]. destruct y; [congruence | reflexivity].
Qed.


(** X19.  Saving, loading and saving again is a round trip: the textarea
    that [loadBlocklist] fills from a saved list is that list joined by
    line feeds, and saving it stores the same list again. *)
Theorem save_load_save_round_trip (w : Popup.world) :
  Popup.blocklist_value
    (Popup.page (exec Popup.loadBlocklist (exec Popup.saveBlocklist w)))
  = join [10%N] (Popup.saved_lines (Popup.blocklist_value (Popup.page w)))
  /\ Popup.store
       (exec Popup.saveBlocklist (exec Popup.loadBlocklist (exec Popup.saveBlocklist w)))
     = Popup.store (exec Popup.saveBlocklist w)
  /\ (blocklist (Popup.store w) = None ->
      Popup.blocklist_value (Popup.page (exec Popup.loadBlocklist w)) = []).
Proof.
  split; [reflexivity |]. split.
  - rewrite !saveBlocklist_stores.
    assert (Popup.blocklist_value
              (Popup.page (exec Popup.loadBlocklist (exec Popup.saveBlocklist w)))
            = join [10%N] (Popup.saved_lines (Popup.blocklist_value (Popup.page w))))
      as -> by reflexivity.
    rewrite clean_lines_saved_as_they_are by (intros line; apply saved_line_clean).
    reflexivity.
  - intros Hn. unfold exec, Popup.loadBlocklist, Popup.storage_get_blocklist,
      bind, modify, gets, Popup.set_page. cbn. rewrite Hn. reflexivity.
Qed.

Variable health : nat -> fetch_outcome Health.health_data.


(** X21.  The connection check of the popup without search does not read
    the body: it shows green exactly when the status is ok, where the check
    of the popup with search shows green exactly when the call is
    delivered.  Both make the same single request and neither throws, so
    the two differ only on an ok answer whose body does not parse. *)
Theorem checkBackend_plain_trusts_the_status (w : Health.world) :
  fst (Health.checkBackend_plain health w) = Ok tt
  /\ Health.trace (exec (Health.checkBackend_plain health) w)
     = Health.trace (exec (Health.checkBackend health) w)
  /\ (Health.status_color (exec (Health.checkBackend_plain health) w) = str "green"
      <-> exists r, health (List.length (requests (Health.trace w))) = Responds r
                    /\ ok r = true)
  /\ (Health.status_color (exec (Health.checkBackend health) w) = str "green"
      <-> exists data,
            delivered (health (List.length (requests (Health.trace w)))) = Some data)
  /\ (Health.status_color (exec (Health.checkBackend_plain health) w)
      <> Health.status_color (exec (Health.checkBackend health) w)
      <-> exists r e, health (List.length (requests (Health.trace w))) = Responds r
                      /\ ok r = true /\ json r = Throw e).
Proof.
  assert (str "red" <> str "green") as Hrg by discriminate.
  assert (str "green" <> str "red") as Hgr by discriminate.
  unfold exec, Health.checkBackend_plain, Health.checkBackend, try_catch, bind,
    Health.fetch, delivered.
  destruct (health _) as [e | [[|] st [data|e]]];
    cbn [fst snd ok json lift ret throw modify Health.set_textContent
         Health.set_color Health.status_color Health.trace Health.status_text];
    (split; [reflexivity |]); (split; [reflexivity |]).
  - split; [split; [intros H; destruct (Hrg H) | intros [r [Hr _]]; discriminate Hr] |].
    split; [split; [intros H; destruct (Hrg H) | intros [d Hd]; discriminate Hd] |].
    split; [intros H; destruct (H eq_refl)
           | intros [r [e' [Hr _]]]; discriminate Hr].
  - split; [split; [intros _; eexists; split; reflexivity | reflexivity] |].
    split; [split; [intros _; eexists; reflexivity | reflexivity] |].
    split; [intros H; destruct (H eq_refl) |].
    intros [r [e' [Hr [_ Hj]]]]. injection Hr as <-. cbn in Hj; discriminate Hj.
  - split; [split; [intros _; eexists; split; reflexivity | reflexivity] |].
    split; [split; [intros H; destruct (Hrg H) | intros [d Hd]; discriminate Hd] |].
    split; [intros _; do 2 eexists; repeat split; reflexivity | intros _; exact Hgr].
  - split; [split; [intros H; destruct (Hrg H)
                   | intros [r [Hr Hok]]; injection Hr as <-; cbn in Hok; discriminate Hok] |].
    split; [split; [intros H; destruct (Hrg H) | intros [d Hd]; discriminate Hd] |].
    split; [intros H; destruct (H eq_refl) |].
    intros [r [e' [Hr [Hok _]]]]. injection Hr as <-. cbn in Hok; discriminate Hok.
  - split; [split; [intros H; destruct (Hrg H)
                   | intros [r [Hr Hok]]; injection Hr as <-; cbn in Hok; discriminate Hok] |].
    split; [split; [intros H; destruct (Hrg H) | intros [d Hd]; discriminate Hd] |].
    split; [intros H; destruct (H eq_refl) |].
    intros [r [e' [Hr [Hok _]]]]. injection Hr as <-. cbn in Hok; discriminate Hok.
Qed.

End EditorFacts.

(* ================================================================== *)
(** * More concrete runs *)
(* ================================================================== *)

Section MoreRuns.
Import Sample Cases Extension.
Existing Instance Sample.platform.

(** A visit made while another capture is pending: it sends nothing by
    itself, comes to the head of the timers once the pending callback has
    run, and its own callback then posts its five fields. *)
Lemma capture_sends_five_fields_witness :
  (requests (Background.trace (exec (Background.processPageVisit example_tab) busy))
   = requests (Background.trace busy)
   /\ Background.timers
        (run indexing pages (exec (Background.processPageVisit example_tab) busy)
             (repeat TimerFires (List.length (Background.timers busy))))
      = [example_tab])
  /\ (Background.timers
        (step indexing pages
              (run indexing pages (exec (Background.processPageVisit example_tab) busy)
                   [TimerFires])
              TimerFires)
      = []
      /\ requests (Background.trace
                     (step indexing pages
                           (run indexing pages
                                (exec (Background.processPageVisit example_tab) busy)
                                [TimerFires])
                           TimerFires))
         = requests (Background.trace
                       (run indexing pages
                            (exec (Background.processPageVisit example_tab) busy)
                            [TimerFires]))
           ++ [Outcome.five_field_request
                 (str "https://example.com/hello") (str "Greeting") (str "")
                 (str "Hello world") (str "2025-01-02T03:04:05.678Z")]).
Proof.
  split.
  - apply (proj1 (proj2 (capture_sends_five_fields
                           indexing pages example_tab busy None []))
                 (str "https://example.com/hello"));
      reflexivity.
  - apply (proj1 (capture_sends_five_fields
                    indexing pages example_tab
                    (run indexing pages
                         (exec (Background.processPageVisit example_tab) busy)
                         [TimerFires])
                    None [])
                 (str "https://example.com/hello") []);
      reflexivity.
Defined.

Lemma default_blocklist_blocks_local_pages_witness :
  blocklisted installed (str "file:///home/me/notes.html") = Ok true
  /\ Background.timers (exec (Background.processPageVisit local_file) installed)
     = Background.timers installed.
Proof.
  apply (default_blocklist_blocks_local_pages installed local_file
           (u := str "file:///home/me/notes.html") (pattern := str "file://")).
  - reflexivity.
  - right. right. right. left. reflexivity.
  - exists [], (str "/home/me/notes.html"). reflexivity.
  - reflexivity.
Defined.

(** Before the default list is installed, a local file is captured. *)
Lemma missing_blocklist_blocks_nothing_witness :
  blocklisted (start None) (str "file:///home/me/notes.html") = Ok false
  /\ Background.timers (exec (Background.processPageVisit local_file) (start None))
     = Background.timers (start None) ++ [local_file].
Proof.
  destruct (missing_blocklist_blocks_nothing (start None) local_file eq_refl)
    as [Hnone Hcap].
  split; [apply Hnone |].
  apply Hcap. exists (str "file:///home/me/notes.html"). repeat split.
Defined.

Lemma blocklist_grows_monotonically_witness :
  blocklisted (start (Some [str "zebra"; str "example.com"]))
              (str "https://example.com/hello") = Ok true.
Proof.
  apply (blocklist_grows_monotonically (start (Some [str "example.com"]))).
  - intros pattern [<- | []]. right. left. reflexivity.
  - reflexivity.
Defined.

Lemma empty_pattern_blocks_every_url_witness :
  blocklisted (start (Some [[]])) (str "https://example.com/hello") = Ok true.
Proof.
  apply empty_pattern_blocks_every_url. left. reflexivity.
Defined.

Lemma only_timers_and_retries_send_witness :
  requests (Background.trace
              (step indexing pages (start None)
                    (TabUpdated (Some (str "complete")) example_tab)))
  = requests (Background.trace (start None))
  /\ filter is_script
            (Background.trace
               (step indexing pages (start None)
                     (TabUpdated (Some (str "complete")) example_tab)))
     = filter is_script (Background.trace (start None))
  /\ failedQueue (Background.store
                    (step indexing pages (start None)
                          (TabUpdated (Some (str "complete")) example_tab)))
     = failedQueue (Background.store (start None)).
Proof.
  apply only_timers_and_retries_send; discriminate.
Defined.

Lemma worker_never_edits_a_stored_blocklist_witness :
  blocklist (Background.store (step indexing pages (start (Some [])) Installed))
  = Some [].
Proof.
  apply worker_never_edits_a_stored_blocklist; reflexivity.
Defined.

(** A page whose main element renders as white space is dropped although
    its text content holds words. *)
Lemma page_without_text_is_dropped_witness :
  Background.visit_callback indexing blank_pages example_tab (start None)
  = (Ok tt, Background.log (ExecuteScript (tab_id example_tab)) (start None)).
Proof.
  apply page_without_text_is_dropped. reflexivity.
Defined.

Lemma search_failure_is_reported_witness :
  Popup.searchResults
    (Popup.page (exec (Popup.performSearch failing) (popup (str "zebra") (str "5"))))
  = []
  /\ Popup.searchStatus_text
       (Popup.page (exec (Popup.performSearch failing) (popup (str "zebra") (str "5"))))
     = str "Search failed: Search failed: Internal Server Error"
  /\ Popup.searchStatus_class
       (Popup.page (exec (Popup.performSearch failing) (popup (str "zebra") (str "5"))))
     = str "status error".
Proof.
  assert (Outcome.search_error
            (encodeURIComponent
               (trim (Popup.searchQuery_value
                        (Popup.page (popup (str "zebra") (str "5"))))))
            (@failing Popup.search_data
                      (List.length
                         (requests (Popup.trace (popup (str "zebra") (str "5"))))))
          = Some (Error (str "Search failed: Internal Server Error"))) as He
      by reflexivity.
  destruct (search_failure_is_reported
              failing (popup (str "zebra") (str "5")) eq_refl He)
    as (Hr & Ht & Hc & _).
  split; [exact Hr |]. split; [exact Ht | exact Hc].
Defined.

Lemma empty_answer_is_shown_as_no_results_witness :
  Popup.searchResults
    (Popup.page (exec (Popup.performSearch finding_nothing)
                      (popup (str "zebra") (str "5"))))
  = [Popup.Markup Popup.no_results_markup]
  /\ Popup.searchStatus_text
       (Popup.page (exec (Popup.performSearch finding_nothing)
                         (popup (str "zebra") (str "5"))))
     = str "No matching pages found"
  /\ Popup.searchStatus_class
       (Popup.page (exec (Popup.performSearch finding_nothing)
                         (popup (str "zebra") (str "5"))))
     = str "status info".
Proof.
  apply (empty_answer_is_shown_as_no_results
           finding_nothing (popup (str "zebra") (str "5"))
           (q := str "zebra")
           (resp := {| ok := true; statusText := str "OK";
                       json := Ok {| Popup.results := None |} |})
           (v := {| Popup.results := None |})
           eq_refl eq_refl eq_refl eq_refl eq_refl).
  left. reflexivity.
Defined.

(** A negative top_k is sent as it is. *)
Lemma top_k_sends_the_parsed_integer_witness :
  requests (Popup.trace (exec (Popup.performSearch searching)
                              (popup (str "zebra") (str "-3"))))
  = [ {| req_url := str "http://localhost:8000/search?query=zebra&top_k=-3";
         req_method := str "GET";
         req_headers := [];
         req_body := None |} ].
Proof.
  apply (top_k_sends_the_parsed_integer searching (popup (str "zebra") (str "-3"))
                                        (k := (-3)%Z)).
  - reflexivity.
  - discriminate.
Defined.

Lemma queued_payloads_were_attempted_witness :
  In (Background.index_request example_payload)
     (requests (Background.trace (run unreachable pages (start None) one_visit))).
Proof.
  apply queued_payloads_were_attempted. left. reflexivity.
Defined.

(** A textarea with blank lines and padding, saved. *)
Example saved_lines_of_textarea :
  Popup.saved_lines ([32; 32]%N ++ str "example.com" ++ [32; 10; 10; 9]%N
                       ++ str "/^https:/" ++ [10]%N)
  = [str "example.com"; str "/^https:/"].
Proof. reflexivity. Qed.

Example health_of_42 :
  Health.checkBackend healthy status_line
  = (Ok true,
     {| Health.status_text :=
          [Health.check_mark] ++ str " Backend connected (42 vectors indexed)";
        Health.status_color := str "green";
        Health.trace :=
          [Fetch {| req_url := str "http://localhost:8000/health";
                    req_method := str "GET";
                    req_headers := []; req_body := None |}] |}).
Proof. reflexivity. Qed.

End MoreRuns.
